(** * Job board back end: the application ledger

    A shallow embedding of the application routes of the job board
    ([routes/applications.js]), of the two schemas they use
    ([models/job.js], [models/application.js]), of the role gates of
    [middleware/auth.js] and of the way [server.js] wires the socket
    server, followed by the properties of the ledger operations
    create, listByCandidate, listByJob and updateStatus.

    The document store, the object-id type and the socket server are
    libraries the routes call.  They are modelled by what the routes
    observe of them: collections are lists of documents in insertion
    order, a query casts its filter values and throws a cast error on
    a malformed id, saving a new document validates it and checks the
    unique indexes, and an emitted event is appended to a log.  *)

From Stdlib Require Import String Ascii List ZArith Bool Lia.
From Stdlib Require Import Permutation Sorted.
Import ListNotations.
Open Scope string_scope.

(** ** Object ids *)

Module ObjectId.

(** An object id is kept in the form its [toString()] prints: 24
    hexadecimal digits in lower case. *)
Definition t := string.

Definition eqb (a b : t) : bool := String.eqb a b.

Definition toString (o : t) : string := o.

Definition is_hex (c : ascii) : bool :=
  let n := nat_of_ascii c in
  (((48 <=? n) && (n <=? 57)) || ((97 <=? n) && (n <=? 102))
   || ((65 <=? n) && (n <=? 70)))%nat.

Definition lower (c : ascii) : ascii :=
  let n := nat_of_ascii c in
  if ((65 <=? n) && (n <=? 70))%nat then ascii_of_nat (n + 32) else c.

Fixpoint all_hex (s : string) : bool :=
  match s with
  | EmptyString => true
  | String c r => is_hex c && all_hex r
  end.

Fixpoint lower_all (s : string) : string :=
  match s with
  | EmptyString => EmptyString
  | String c r => String (lower c) (lower_all r)
  end.

Definition hex_digit (n : nat) : ascii :=
  if (n <? 10)%nat then ascii_of_nat (48 + n) else ascii_of_nat (87 + n).

(** The bytes of a string, each printed as two hexadecimal digits. *)
Fixpoint hex_of_bytes (s : string) : string :=
  match s with
  | EmptyString => EmptyString
  | String c r =>
      String (hex_digit (nat_of_ascii c / 16))
        (String (hex_digit (nat_of_ascii c mod 16)) (hex_of_bytes r))
  end.

(** The cast the store applies to an id given as a string (a string
    being the sequence of its bytes): a string of 24 hexadecimal
    digits is the id it prints, a string of 12 bytes is the id made
    of those bytes, and anything else makes the query throw a cast
    error. *)
Definition cast (s : string) : option t :=
  if (String.length s =? 24)%nat && all_hex s then Some (lower_all s)
  else if (String.length s =? 12)%nat then Some (hex_of_bytes s)
  else None.

End ObjectId.

(** ** Documents (models/job.js, models/application.js, models/user.js) *)

Record UserDoc := mkUserDoc {
  user_oid : ObjectId.t;
  user_name : string;
  user_email : string;
  user_docrole : string;
  user_company : option string
}.

Record Job := mkJob {
  job_oid : ObjectId.t;
  title : string;
  company : string;
  location : string;
  description : string;
  requirements : list string;
  salary : option string;
  employmentType : string;
  employer : ObjectId.t;
  isActive : bool;
  applicationDeadline : option Z;
  job_createdAt : Z
}.

Record Application := mkApplication {
  app_oid : ObjectId.t;
  job : ObjectId.t;
  candidate : ObjectId.t;
  resume : string;
  coverLetter : option string;
  status : string;
  createdAt : Z
}.

(** The enum of [ApplicationSchema.status] and its default. *)
Definition status_enum : list string :=
  ["pending"; "reviewing"; "rejected"; "accepted"].

Definition default_status : string := "pending".

(** [Array.prototype.includes] on an array of strings. *)
Fixpoint includes (l : list string) (s : string) : bool :=
  match l with
  | [] => false
  | x :: r => String.eqb x s || includes r s
  end.

(** ** The store *)

Record Db := mkDb {
  users : list UserDoc;
  jobs : list Job;
  applications : list Application
}.

(** What a rejected store call or a failing statement throws. *)
Inductive Exn :=
| CastError (kind : string)
| ValidationError (path : string)
| DuplicateKey (index : string)
| TypeError (message : string).

(** [err.kind] as the catch blocks read it. *)
Definition kind_of (e : Exn) : option string :=
  match e with
  | CastError k => Some k
  | _ => None
  end.

Definition cast_id (s : string) : Exn + ObjectId.t :=
  match ObjectId.cast s with
  | Some o => inr o
  | None => inl (CastError "ObjectId")
  end.

Module JobModel.

(** [Job.findOne({ _id: jobId, isActive: true })] *)
Definition findOne_active (db : Db) (jobId : string) : Exn + option Job :=
  match cast_id jobId with
  | inl e => inl e
  | inr o =>
      inr (find (fun j => ObjectId.eqb (job_oid j) o && isActive j) (jobs db))
  end.

(** [Job.findById] on an id that is already an object id. *)
Definition findById_oid (db : Db) (o : ObjectId.t) : option Job :=
  find (fun j => ObjectId.eqb (job_oid j) o) (jobs db).

(** [Job.findById] on a request parameter. *)
Definition findById (db : Db) (jobId : string) : Exn + option Job :=
  match cast_id jobId with
  | inl e => inl e
  | inr o => inr (findById_oid db o)
  end.

End JobModel.

Module ApplicationModel.

Definition same_pair (j c : ObjectId.t) (a : Application) : bool :=
  ObjectId.eqb (job a) j && ObjectId.eqb (candidate a) c.

(** [Application.findOne({ job: jobId, candidate: userId })] *)
Definition findOne_pair (db : Db) (jobId userId : string)
  : Exn + option Application :=
  match cast_id jobId with
  | inl e => inl e
  | inr j =>
      match cast_id userId with
      | inl e => inl e
      | inr c => inr (find (same_pair j c) (applications db))
      end
  end.

(** [Application.findById(req.params.id)] *)
Definition findById (db : Db) (id : string) : Exn + option Application :=
  match cast_id id with
  | inl e => inl e
  | inr o =>
      inr (find (fun a => ObjectId.eqb (app_oid a) o) (applications db))
  end.

(** What [new Application({ job, candidate, resume, coverLetter })]
    followed by validation yields: the two references are cast, the
    required resume must be a non-empty string, the defaults of
    [status] and [createdAt] are filled in. *)
Definition build (oid : ObjectId.t) (now : Z) (jobId userId : string)
    (resume_in coverLetter_in : option string) : Exn + Application :=
  match cast_id jobId with
  | inl _ => inl (ValidationError "job")
  | inr j =>
      match cast_id userId with
      | inl _ => inl (ValidationError "candidate")
      | inr c =>
          match resume_in with
          | None => inl (ValidationError "resume")
          | Some r =>
              if String.eqb r "" then inl (ValidationError "resume")
              else inr (mkApplication oid j c r coverLetter_in
                          default_status now)
          end
      end
  end.

(** The insert of a new document.  The collection has two unique
    indexes: the one on [_id] every collection has and the one
    declared by [ApplicationSchema.index({ job: 1, candidate: 1 },
    { unique: true })]. *)
Definition insert (db : Db) (a : Application) : Exn + Db :=
  if existsb (fun b => ObjectId.eqb (app_oid b) (app_oid a)) (applications db)
  then inl (DuplicateKey "_id_")
  else if existsb (same_pair (job a) (candidate a)) (applications db)
  then inl (DuplicateKey "job_1_candidate_1")
  else inr (mkDb (users db) (jobs db) (applications db ++ [a])%list).

Definition set_status (s : string) (a : Application) : Application :=
  mkApplication (app_oid a) (job a) (candidate a) (resume a)
    (coverLetter a) s (createdAt a).

(** [application.status = s; application.save()] on a document that
    was read from the collection: the stored document with that
    [_id] is replaced.  The documents of the collection are those
    POST / inserted, so the document passes the validation of
    [save]. *)
Definition update_status (db : Db) (a : Application) (s : string) : Db :=
  mkDb (users db) (jobs db)
    (map (fun b => if ObjectId.eqb (app_oid b) (app_oid a)
                   then set_status s b else b)
         (applications db)).

End ApplicationModel.

(** ** Queries with populate and sort *)

(** [.sort({ createdAt: -1 })]: newest first; documents of equal date
    keep their collection order. *)
Fixpoint insert_desc (a : Application) (l : list Application)
  : list Application :=
  match l with
  | [] => [a]
  | b :: r =>
      if (createdAt b <=? createdAt a)%Z then a :: b :: r
      else b :: insert_desc a r
  end.

Fixpoint sort_desc (l : list Application) : list Application :=
  match l with
  | [] => []
  | a :: r => insert_desc a (sort_desc r)
  end.

Record CandidateInfo := mkCandidateInfo {
  ci_id : ObjectId.t;
  ci_name : string;
  ci_email : string
}.

Record JobInfo := mkJobInfo {
  ji_id : ObjectId.t;
  ji_title : string;
  ji_company : string;
  ji_location : string
}.

(** A document whose reference was populated: the reference is
    replaced by the selected fields of the referenced document, or by
    null when there is none. *)
Record Populated (P : Type) := mkPopulated {
  doc : Application;
  ref : option P
}.
Arguments mkPopulated {P} _ _.
Arguments doc {P} _.
Arguments ref {P} _.

(** [.populate('candidate', 'name email')] *)
Definition populate_candidate (db : Db) (a : Application)
  : Populated CandidateInfo :=
  mkPopulated a
    (option_map (fun u => mkCandidateInfo (user_oid u) (user_name u)
                            (user_email u))
       (find (fun u => ObjectId.eqb (user_oid u) (candidate a)) (users db))).

(** [.populate('job', 'title company location')] *)
Definition populate_job (db : Db) (a : Application) : Populated JobInfo :=
  mkPopulated a
    (option_map (fun j => mkJobInfo (job_oid j) (title j) (company j)
                            (location j))
       (JobModel.findById_oid db (job a))).

(** [Application.find({ job: jobId }).populate(...).sort(...)] *)
Definition find_by_job (db : Db) (jobId : string)
  : Exn + list (Populated CandidateInfo) :=
  match cast_id jobId with
  | inl e => inl e
  | inr j =>
      inr (map (populate_candidate db)
             (sort_desc (filter (fun a => ObjectId.eqb (job a) j)
                           (applications db))))
  end.

(** [Application.find({ candidate: userId }).populate(...).sort(...)] *)
Definition find_by_candidate (db : Db) (userId : string)
  : Exn + list (Populated JobInfo) :=
  match cast_id userId with
  | inl e => inl e
  | inr c =>
      inr (map (populate_job db)
             (sort_desc (filter (fun a => ObjectId.eqb (candidate a) c)
                           (applications db))))
  end.

(** ** Requests, responses, events *)

(** [req.user] as the JWT strategy leaves it. *)
Record User := mkUser {
  user_id : string;
  role : string
}.

(** The parts of a request the application routes read.  Route
    parameters are always strings; a body field other than [jobId]
    may be absent. *)
Record Request := mkRequest {
  user : option User;
  params_id : string;
  params_jobId : string;
  body_jobId : string;
  body_resume : option string;
  body_coverLetter : option string;
  body_status : option string
}.

Inductive Body :=
| PlainText (text : string)
| ErrorMessage (message : string)
| ApplicationDoc (a : Application)
| ApplicationsOfCandidate (l : list (Populated JobInfo))
| ApplicationsOfJob (l : list (Populated CandidateInfo)).

Record Response := mkResponse {
  code : nat;
  body : Body
}.

(** [res.status(c).json({ error: true, message: m })] *)
Definition error_response (c : nat) (m : string) : Response :=
  mkResponse c (ErrorMessage m).

(** [io.to(room).emit(name, payload)] as the relay receives it. *)
Record Event := mkEvent {
  room : string;
  event_name : string;
  payload : list (string * string)
}.

(** ** The application object and its settings (server.js)

    [req.app.get(name)] reads the settings table of the application;
    [app.set(name, value)] is the only way to fill it.  Only settings
    that hold a socket server matter to the routes. *)
Inductive Setting := SocketServer.

Definition App := list (string * Setting).

Fixpoint app_get (app : App) (name : string) : option Setting :=
  match app with
  | [] => None
  | (k, v) :: r => if String.eqb k name then Some v else app_get r name
  end.

Definition app_set (app : App) (name : string) (v : Setting) : App :=
  (name, v) :: app.

(** The calls [server.js] makes on the application object. *)
Inductive AppCall :=
| Use (what : string)
| GetRoute (path : string)
| SetSetting (name : string) (v : Setting).

Definition apply_call (app : App) (c : AppCall) : App :=
  match c with
  | SetSetting name v => app_set app name v
  | Use _ | GetRoute _ => app
  end.

(** [server.js], top to bottom: [express()], then middleware and
    routers mounted with [app.use] and the default route.  The socket
    server is created next to the application and handed to
    [socketSetup(io)], which stores it as [io.app]; no call to
    [app.set] occurs. *)
Definition server_js : list AppCall :=
  [Use "express.json()";
   Use "cors()";
   Use "helmet()";
   Use "passport.initialize()";
   Use "/api/ apiLimiter";
   Use "/api/auth authRoutes";
   Use "/api/jobs jobRoutes";
   Use "/api/applications applicationRoutes";
   GetRoute "/";
   Use "error handler"].

(** The application the routes see as [req.app]. *)
Definition server_app : App := fold_left apply_call server_js [].

(** What the environment hands to one request: the clock reading of
    [Date.now] and the [_id] the driver generates for a new document. *)
Record Env := mkEnv {
  now : Z;
  new_oid : ObjectId.t
}.

(** ** Handlers: state, early responses and exceptions

    A handler body runs against the store and the event log.  Each
    statement either continues with a value, ends the request by
    sending a response, or throws; what was written before a throw
    stays written. *)

Definition World := (Db * list Event)%type.

Inductive Step (A : Type) :=
| Value (a : A)
| Sent (r : Response)
| Thrown (e : Exn).
Arguments Value {A} _.
Arguments Sent {A} _.
Arguments Thrown {A} _.

Definition Handler (A : Type) := World -> Step A * World.

Definition ret {A} (a : A) : Handler A := fun w => (Value a, w).

Definition bind {A B} (m : Handler A) (k : A -> Handler B) : Handler B :=
  fun w =>
    match m w with
    | (Value a, w') => k a w'
    | (Sent r, w') => (Sent r, w')
    | (Thrown e, w') => (Thrown e, w')
    end.

Notation "x <- m ;; k" := (bind m (fun x => k))
  (at level 61, m at next level, right associativity).
Notation "m ;;; k" := (bind m (fun _ => k))
  (at level 61, right associativity).

Definition send {A} (r : Response) : Handler A := fun w => (Sent r, w).

Definition throw {A} (e : Exn) : Handler A := fun w => (Thrown e, w).

(** [await] of a read of the store. *)
Definition query {A} (q : Db -> Exn + A) : Handler A :=
  fun w =>
    match q (fst w) with
    | inl e => (Thrown e, w)
    | inr a => (Value a, w)
    end.

(** [await] of a write to the store. *)
Definition write (u : Db -> Exn + Db) : Handler unit :=
  fun w =>
    match u (fst w) with
    | inl e => (Thrown e, w)
    | inr db' => (Value tt, (db', snd w))
    end.

(** [req.user]: reading a property of it when it is undefined is a
    type error. *)
Definition req_user (req : Request) : Handler User :=
  match user req with
  | Some u => ret u
  | None => throw (TypeError "Cannot read properties of undefined")
  end.

(** [req.app.get('io').to(room).emit(name, payload)]: calling [to] on
    an unset setting is a type error. *)
Definition emit_to (app : App) (r name : string)
    (p : list (string * string)) : Handler unit :=
  match app_get app "io" with
  | Some SocketServer => fun w => (Value tt, (fst w, (snd w ++ [mkEvent r name p])%list))
  | None => throw (TypeError "Cannot read properties of undefined")
  end.

(** [try { body } catch (err) { handler }] around a whole handler. *)
Definition try_catch (h : Handler Response) (c : Exn -> Response)
  : World -> Response * World :=
  fun w =>
    match h w with
    | (Value r, w') => (r, w')
    | (Sent r, w') => (r, w')
    | (Thrown e, w') => (c e, w')
    end.

(** ** middleware/auth.js *)

Definition Middleware := Request -> option Response.

(** [passport.authenticate('jwt', { session: false })]: a request
    without a valid token is answered 401 with the plain status text
    and goes no further; otherwise [req.user] is set. *)
Definition unauthenticated : Response :=
  mkResponse 401 (PlainText "Unauthorized").

Definition authenticateJWT : Middleware :=
  fun req =>
    match user req with
    | Some _ => None
    | None => Some unauthenticated
    end.

Definition has_role (r : string) (req : Request) : bool :=
  match user req with
  | Some u => String.eqb (role u) r
  | None => false
  end.

Definition authorizeEmployer : Middleware :=
  fun req =>
    if has_role "employer" req then None
    else Some (error_response 403 "Access denied. Employers only.").

Definition authorizeCandidate : Middleware :=
  fun req =>
    if has_role "candidate" req then None
    else Some (error_response 403 "Access denied. Candidates only.").

Definition authorizeAdmin : Middleware :=
  fun req =>
    if has_role "admin" req then None
    else Some (error_response 403 "Access denied. Admins only.").

(** A route: the middleware in order, then the handler.  A response
    sent by a middleware leaves the store and the log untouched. *)
Fixpoint route (gates : list Middleware)
    (h : Request -> World -> Response * World) (req : Request) (w : World)
  : Response * World :=
  match gates with
  | [] => h req w
  | g :: r =>
      match g req with
      | Some resp => (resp, w)
      | None => route r h req w
      end
  end.

(** ** routes/applications.js *)

Module Routes.

Definition server_error : Response := error_response 500 "Server error".

(** [newApplication.save()]: validation, then the insert. *)
Definition save_new (env : Env) (jobId userId : string)
    (resume_in coverLetter_in : option string) : Handler Application :=
  fun w =>
    match ApplicationModel.build (new_oid env) (now env) jobId userId
            resume_in coverLetter_in with
    | inl e => (Thrown e, w)
    | inr a =>
        match ApplicationModel.insert (fst w) a with
        | inl e => (Thrown e, w)
        | inr db' => (Value a, (db', snd w))
        end
    end.

(** POST /: the two reads that precede the insert. *)
Definition create_check (req : Request) : Handler (Job * User) :=
  job <- query (fun db => JobModel.findOne_active db (body_jobId req)) ;;
  match job with
  | None => send (error_response 404 "Job not found or no longer active")
  | Some job =>
      u <- req_user req ;;
      existingApplication <-
        query (fun db => ApplicationModel.findOne_pair db (body_jobId req)
                           (user_id u)) ;;
      match existingApplication with
      | Some _ =>
          send (error_response 400 "You have already applied for this job")
      | None => ret (job, u)
      end
  end.

(** POST /: the insert, the notification and the response. *)
Definition create_commit (app : App) (env : Env) (req : Request)
    (ju : Job * User) : Handler Response :=
  let (job, u) := ju in
  application <- save_new env (body_jobId req) (user_id u)
                   (body_resume req) (body_coverLetter req) ;;
  emit_to app ("employer-" ++ ObjectId.toString (employer job))
    "newApplication"
    [("jobId", ObjectId.toString (job_oid job));
     ("jobTitle", title job);
     ("applicationId", ObjectId.toString (app_oid application))] ;;;
  ret (mkResponse 200 (ApplicationDoc application)).

Definition create_body (app : App) (env : Env) (req : Request)
  : Handler Response :=
  ju <- create_check req ;; create_commit app env req ju.

Definition create_handler (app : App) (env : Env) (req : Request)
  : World -> Response * World :=
  try_catch (create_body app env req) (fun _ => server_error).

(** GET /candidate *)
Definition listByCandidate_body (req : Request) : Handler Response :=
  u <- req_user req ;;
  applications <- query (fun db => find_by_candidate db (user_id u)) ;;
  ret (mkResponse 200 (ApplicationsOfCandidate applications)).

Definition listByCandidate_handler (req : Request)
  : World -> Response * World :=
  try_catch (listByCandidate_body req) (fun _ => server_error).

(** GET /job/:jobId *)
Definition listByJob_body (req : Request) : Handler Response :=
  job <- query (fun db => JobModel.findById db (params_jobId req)) ;;
  match job with
  | None => send (error_response 404 "Job not found")
  | Some job =>
      u <- req_user req ;;
      if negb (String.eqb (ObjectId.toString (employer job)) (user_id u))
      then send (error_response 401 "Not authorized")
      else
        applications <- query (fun db => find_by_job db (params_jobId req)) ;;
        ret (mkResponse 200 (ApplicationsOfJob applications))
  end.

Definition listByJob_handler (req : Request) : World -> Response * World :=
  try_catch (listByJob_body req)
    (fun err =>
       match kind_of err with
       | Some k =>
           if String.eqb k "ObjectId" then error_response 404 "Job not found"
           else server_error
       | None => server_error
       end).

(** PUT /:id *)
Definition valid_status (s : option string) : bool :=
  match s with
  | Some v => includes status_enum v
  | None => false
  end.

Definition updateStatus_body (app : App) (req : Request)
  : Handler Response :=
  match body_status req with
  | None => send (error_response 400 "Invalid status")
  | Some status =>
      if negb (includes status_enum status)
      then send (error_response 400 "Invalid status")
      else
        application <-
          query (fun db => ApplicationModel.findById db (params_id req)) ;;
        match application with
        | None => send (error_response 404 "Application not found")
        | Some application =>
            job <- query (fun db =>
                            inr (JobModel.findById_oid db (job application))) ;;
            match job with
            | None => send (error_response 401 "Not authorized")
            | Some job =>
                u <- req_user req ;;
                if negb (String.eqb (ObjectId.toString (employer job))
                           (user_id u))
                then send (error_response 401 "Not authorized")
                else
                  write (fun db =>
                           inr (ApplicationModel.update_status db
                                  application status)) ;;;
                  emit_to app
                    ("user-" ++ ObjectId.toString (candidate application))
                    "applicationStatusUpdated"
                    [("applicationId",
                      ObjectId.toString (app_oid application));
                     ("jobTitle", title job);
                     ("newStatus", status)] ;;;
                  ret (mkResponse 200
                         (ApplicationDoc
                            (ApplicationModel.set_status status application)))
            end
        end
  end.

Definition updateStatus_handler (app : App) (req : Request)
  : World -> Response * World :=
  try_catch (updateStatus_body app req)
    (fun err =>
       match kind_of err with
       | Some k =>
           if String.eqb k "ObjectId"
           then error_response 404 "Application not found"
           else server_error
       | None => server_error
       end).

(** The four routes with their middleware.  The rate limiter of
    POST / keeps its own counters per client and hour; the routes
    below are what runs for a request it lets through. *)
Definition create (app : App) (env : Env) :=
  route [authenticateJWT; authorizeCandidate] (create_handler app env).

Definition listByCandidate :=
  route [authenticateJWT; authorizeCandidate] listByCandidate_handler.

Definition listByJob := route [authenticateJWT] listByJob_handler.

Definition updateStatus (app : App) :=
  route [authenticateJWT; authorizeEmployer] (updateStatus_handler app).

End Routes.

(** ** Error kinds

    The five error kinds of the ledger, read off a response: 404 is
    NotFound, 401 and 403 are Unauthorized (the ownership check and
    the role check), 500 is Internal; 400 is Conflict when it reports
    a duplicate application and BadRequest otherwise. *)
Inductive ErrorKind := NotFound | Conflict | Unauthorized | BadRequest | Internal.

Definition is_duplicate_message (b : Body) : bool :=
  match b with
  | ErrorMessage m => String.eqb m "You have already applied for this job"
  | _ => false
  end.

Definition error_kind (r : Response) : option ErrorKind :=
  if (code r =? 404)%nat then Some NotFound
  else if (code r =? 401)%nat || (code r =? 403)%nat then Some Unauthorized
  else if (code r =? 500)%nat then Some Internal
  else if (code r =? 400)%nat then
    if is_duplicate_message (body r) then Some Conflict else Some BadRequest
  else None.

Definition succeeds (r : Response) : Prop := code r = 200%nat.

(** ** The ledger invariant *)

Definition pair_of (a : Application) : ObjectId.t * ObjectId.t :=
  (job a, candidate a).

(** At most one application per (job, candidate) pair. *)
Definition unique_pairs (db : Db) : Prop :=
  NoDup (map pair_of (applications db)).

(** The applications of a pair. *)
Definition applications_of (db : Db) (j c : ObjectId.t) : list Application :=
  filter (ApplicationModel.same_pair j c) (applications db).

(** ** Events, operations and orderings used in the statements *)

(** The event POST / emits (lines 48-52 of the route). *)
Definition newApplication_event (j : Job) (a : Application) : Event :=
  mkEvent ("employer-" ++ ObjectId.toString (employer j)) "newApplication"
    [("jobId", ObjectId.toString (job_oid j));
     ("jobTitle", title j);
     ("applicationId", ObjectId.toString (app_oid a))].

(** The event PUT /:id emits (lines 165-169 of the route). *)
Definition statusUpdated_event (j : Job) (a : Application) (s : string)
  : Event :=
  mkEvent ("user-" ++ ObjectId.toString (candidate a))
    "applicationStatusUpdated"
    [("applicationId", ObjectId.toString (app_oid a));
     ("jobTitle", title j);
     ("newStatus", s)].

(** The operations of the ledger. *)
Inductive Op :=
| Create (env : Env) (req : Request)
| ListByCandidate (req : Request)
| ListByJob (req : Request)
| UpdateStatus (req : Request).

Definition run_op (app : App) (op : Op) (w : World) : Response * World :=
  match op with
  | Create env req => Routes.create app env req w
  | ListByCandidate req => Routes.listByCandidate req w
  | ListByJob req => Routes.listByJob req w
  | UpdateStatus req => Routes.updateStatus app req w
  end.

Fixpoint run_ops (app : App) (ops : list Op) (w : World) : World :=
  match ops with
  | [] => w
  | op :: r => run_ops app r (snd (run_op app op w))
  end.

(** Two POST / requests whose reads both run before either insert:
    the interleaving in which an application-level check cannot see
    the other request's record. *)
Definition create_race (app : App) (env1 env2 : Env) (req1 req2 : Request)
    (w : World) : option (Response * Response * World) :=
  match Routes.create_check req1 w, Routes.create_check req2 w with
  | (Value ju1, _), (Value ju2, _) =>
      let (r1, w1) :=
        try_catch (Routes.create_commit app env1 req1 ju1)
          (fun _ => Routes.server_error) w in
      let (r2, w2) :=
        try_catch (Routes.create_commit app env2 req2 ju2)
          (fun _ => Routes.server_error) w1 in
      Some (r1, r2, w2)
  | _, _ => None
  end.

(** Newest first. *)
Definition newer_or_equal (a b : Application) : Prop :=
  (createdAt b <= createdAt a)%Z.

(** What populate puts in place of the candidate reference: the id,
    name and email of the user with that id, or null when no user
    has it. *)
Definition joined_with_candidate (db : Db) (p : Populated CandidateInfo)
  : Prop :=
  match ref p with
  | Some ci =>
      exists usr, In usr (users db) /\
                  user_oid usr = candidate (doc p) /\
                  ci_id ci = user_oid usr /\
                  ci_name ci = user_name usr /\
                  ci_email ci = user_email usr
  | None => forall usr, In usr (users db) -> user_oid usr <> candidate (doc p)
  end.


(** ** More of the ledger: statements about all four routes *)

(** What populate puts in place of the job reference: the id, title,
    company and location of the job with that id, or null when the
    job is no longer stored. *)
Definition joined_with_job (db : Db) (p : Populated JobInfo) : Prop :=
  match ref p with
  | Some ji =>
      exists jb, In jb (jobs db) /\
                 job_oid jb = job (doc p) /\
                 ji_id ji = job_oid jb /\
                 ji_title ji = title jb /\
                 ji_company ji = company jb /\
                 ji_location ji = location jb
  | None => forall jb, In jb (jobs db) -> job_oid jb <> job (doc p)
  end.

(** Every stored status is a value of the enum. *)
Definition statuses_valid (db : Db) : Prop :=
  Forall (fun a => In (status a) status_enum) (applications db).

(** No two stored applications share an [_id]. *)
Definition app_ids_distinct (db : Db) : Prop :=
  NoDup (map app_oid (applications db)).

(** Two versions of one application that differ at most in status. *)
Definition same_but_status (a b : Application) : Prop :=
  app_oid b = app_oid a /\ job b = job a /\ candidate b = candidate a /\
  resume b = resume a /\ coverLetter b = coverLetter a /\
  createdAt b = createdAt a.

(** ** socket/socket.js

    A connected client is known to the relay by the rooms it is in:
    its own room, named by the socket id, and those it joined.  The
    two handlers of the connection join a room named after the id the
    client sends; the id is not compared with anything. *)
Module Socket.








End Socket.

(** ** routes/jobs.js: GET /:id, PUT /:id and GET /employer/me *)

(** A value of the body of PUT /:id, by what the handler and the
    store make of it.  [Missing] is a field that is absent or holds a
    falsy value other than the ones written out below; [Given v] is a
    value the update casts to [v] (a string for a text path, and so
    on; a number or boolean sent for a text path is recorded by the
    string it is cast to); [Uncastable] is a truthy value the update
    cannot cast to the type of its path, such as an object for a
    text path. *)
Inductive BodyValue (A : Type) :=
| Missing
| Given (v : A)
| Uncastable.
Arguments Missing {A}.
Arguments Given {A} _.
Arguments Uncastable {A}.

(** The deadline of the body: absent (or null, false, the empty
    string), a number of milliseconds, another value that denotes the
    time [t], or a value that denotes no date, such as the string
    'soon'. *)
Inductive DeadlineValue :=
| NoDeadline
| DeadlineNumber (ms : Z)
| DeadlineDate (t : Z)
| DeadlineUncastable.

(** [req.body] of PUT /:id.  For [isActive], [Missing] is the absent
    field only, and [Given b] is a value the store casts to the
    boolean [b]; a null [isActive], which the store would write as
    null, is not among the bodies described here. *)
Record JobInput := mkJobInput {
  b_title : BodyValue string;
  b_description : BodyValue string;
  b_requirements : BodyValue (list string);
  b_location : BodyValue string;
  b_salary : BodyValue string;
  b_employmentType : BodyValue string;
  b_applicationDeadline : DeadlineValue;
  b_isActive : BodyValue bool
}.

Record JobRequest := mkJobRequest {
  job_user : option User;
  job_params_id : string;
  job_body : JobInput
}.

(** The body that holds no field. *)
Definition empty_body : JobInput :=
  mkJobInput Missing Missing Missing Missing Missing Missing NoDeadline
    Missing.

(** [if (x) jobFields.x = x] on a text: the empty string is falsy and
    is left out like an absent field. *)
Definition truthy (v : BodyValue string) : BodyValue string :=
  match v with
  | Given s => if String.eqb s "" then Missing else Given s
  | Missing => Missing
  | Uncastable => Uncastable
  end.

(** [if (applicationDeadline) ...]: the number 0 is falsy. *)
Definition truthy_deadline (d : DeadlineValue) : DeadlineValue :=
  match d with
  | DeadlineNumber ms => if (ms =? 0)%Z then NoDeadline else d
  | _ => d
  end.

(** The object [jobFields] the handler builds from the body; the
    values are still as they were sent. *)
Definition build_jobFields (b : JobInput) : JobInput :=
  mkJobInput (truthy (b_title b)) (truthy (b_description b))
    (b_requirements b) (truthy (b_location b)) (truthy (b_salary b))
    (truthy (b_employmentType b))
    (truthy_deadline (b_applicationDeadline b)) (b_isActive b).

(** The document [{ $set: jobFields }] carries once every value is
    cast to the type of its path. *)
Record JobFields := mkJobFields {
  f_title : option string;
  f_description : option string;
  f_requirements : option (list string);
  f_location : option string;
  f_salary : option string;
  f_employmentType : option string;
  f_applicationDeadline : option Z;
  f_isActive : option bool
}.

Definition cast_value {A} (kind : string) (v : BodyValue A)
  : Exn + option A :=
  match v with
  | Missing => inr None
  | Given x => inr (Some x)
  | Uncastable => inl (CastError kind)
  end.

(** The largest time a date holds, in milliseconds either side of
    the epoch. *)
Definition max_time : Z := 8640000000000000.

Definition cast_deadline (d : DeadlineValue) : Exn + option Z :=
  match d with
  | NoDeadline => inr None
  | DeadlineNumber ms =>
      if (Z.abs ms <=? max_time)%Z then inr (Some ms)
      else inl (CastError "date")
  | DeadlineDate t => inr (Some t)
  | DeadlineUncastable => inl (CastError "date")
  end.

(** The cast of the update: the first value that does not cast makes
    the whole update throw. *)
Definition cast_jobFields (f : JobInput) : Exn + JobFields :=
  match cast_value "string" (b_title f) with
  | inl e => inl e
  | inr t =>
  match cast_value "string" (b_description f) with
  | inl e => inl e
  | inr d =>
  match cast_value "Array" (b_requirements f) with
  | inl e => inl e
  | inr r =>
  match cast_value "string" (b_location f) with
  | inl e => inl e
  | inr l =>
  match cast_value "string" (b_salary f) with
  | inl e => inl e
  | inr sa =>
  match cast_value "string" (b_employmentType f) with
  | inl e => inl e
  | inr et =>
  match cast_deadline (b_applicationDeadline f) with
  | inl e => inl e
  | inr dl =>
  match cast_value "Boolean" (b_isActive f) with
  | inl e => inl e
  | inr ia => inr (mkJobFields t d r l sa et dl ia)
  end end end end end end end end.

Definition or_keep {A} (new : option A) (old : A) : A :=
  match new with
  | Some v => v
  | None => old
  end.

(** [{ $set: ... }] on one document. *)
Definition set_fields (f : JobFields) (j : Job) : Job :=
  mkJob (job_oid j)
    (or_keep (f_title f) (title j))
    (company j)
    (or_keep (f_location f) (location j))
    (or_keep (f_description f) (description j))
    (or_keep (f_requirements f) (requirements j))
    (match f_salary f with Some v => Some v | None => salary j end)
    (or_keep (f_employmentType f) (employmentType j))
    (employer j)
    (or_keep (f_isActive f) (isActive j))
    (match f_applicationDeadline f with
     | Some t => Some t
     | None => applicationDeadline j
     end)
    (job_createdAt j).

Fixpoint update_first (o : ObjectId.t) (f : Job -> Job) (l : list Job)
  : list Job :=
  match l with
  | [] => []
  | j :: r =>
      if ObjectId.eqb (job_oid j) o then f j :: r
      else j :: update_first o f r
  end.

(** [Job.findByIdAndUpdate(id, { $set: fields }, { new: true })]: the
    id and the values are cast, and a cast error is thrown before
    anything is written; otherwise the first document with that
    [_id] is updated and returned as it is after the update; null
    when there is none.  No validator runs on an update. *)
Definition findByIdAndUpdate (db : Db) (id : string) (f : JobInput)
  : Exn + (Db * option Job) :=
  match cast_id id with
  | inl e => inl e
  | inr o =>
      match cast_jobFields f with
      | inl e => inl e
      | inr c =>
          inr (mkDb (users db) (update_first o (set_fields c) (jobs db))
                 (applications db),
               option_map (set_fields c) (JobModel.findById_oid db o))
      end
  end.

Record EmployerInfo := mkEmployerInfo {
  ei_id : ObjectId.t;
  ei_name : string;
  ei_company : option string
}.

Record PopulatedJob := mkPopulatedJob {
  pj_job : Job;
  pj_employer : option EmployerInfo
}.

(** [.populate('employer', 'name company')] *)
Definition populate_employer (db : Db) (j : Job) : PopulatedJob :=
  mkPopulatedJob j
    (option_map (fun u => mkEmployerInfo (user_oid u) (user_name u)
                            (user_company u))
       (find (fun u => ObjectId.eqb (user_oid u) (employer j)) (users db))).

(** Newest first, for jobs. *)
Fixpoint insert_job_desc (j : Job) (l : list Job) : list Job :=
  match l with
  | [] => [j]
  | k :: r =>
      if (job_createdAt k <=? job_createdAt j)%Z then j :: k :: r
      else k :: insert_job_desc j r
  end.

Fixpoint sort_jobs_desc (l : list Job) : list Job :=
  match l with
  | [] => []
  | j :: r => insert_job_desc j (sort_jobs_desc r)
  end.

Definition job_newer_or_equal (j k : Job) : Prop :=
  (job_createdAt k <= job_createdAt j)%Z.

(** [Job.find({ employer: userId }).sort({ createdAt: -1 })] *)
Definition find_by_employer (db : Db) (userId : string) : Exn + list Job :=
  match cast_id userId with
  | inl e => inl e
  | inr o =>
      inr (sort_jobs_desc
             (filter (fun j => ObjectId.eqb (employer j) o) (jobs db)))
  end.

Inductive JobBody :=
| JobPlainText (text : string)
| JobErrorMessage (message : string)
| OneJob (p : option PopulatedJob)
| JobList (l : list Job).

Record JobResponse := mkJobResponse {
  job_code : nat;
  job_body_out : JobBody
}.

Definition job_error (c : nat) (m : string) : JobResponse :=
  mkJobResponse c (JobErrorMessage m).

(** [req.app.get('io').emit(name, payload)]: an event for every
    connected client. *)
Record Broadcast := mkBroadcast {
  broadcast_name : string;
  broadcast_job : option PopulatedJob
}.

Definition JobWorld := (Db * list Broadcast)%type.

Module JobRoutes.

Definition server_error : JobResponse := job_error 500 "Server error".

Definition unauthenticated : JobResponse :=
  mkJobResponse 401 (JobPlainText "Unauthorized").

(** The catch block the three routes with an id parameter share. *)
Definition on_error (err : Exn) : JobResponse :=
  match kind_of err with
  | Some k =>
      if String.eqb k "ObjectId" then job_error 404 "Job not found"
      else server_error
  | None => server_error
  end.

(** GET /:id, open to everybody. *)
Definition getJob (req : JobRequest) (w : JobWorld)
  : JobResponse * JobWorld :=
  match JobModel.findById (fst w) (job_params_id req) with
  | inl err => (on_error err, w)
  | inr None => (job_error 404 "Job not found", w)
  | inr (Some job) =>
      (mkJobResponse 200 (OneJob (Some (populate_employer (fst w) job))), w)
  end.

(** PUT /:id, behind [authenticateJWT]. *)
Definition updateJob (app : App) (req : JobRequest) (w : JobWorld)
  : JobResponse * JobWorld :=
  match job_user req with
  | None => (unauthenticated, w)
  | Some u =>
      match JobModel.findById (fst w) (job_params_id req) with
      | inl err => (on_error err, w)
      | inr None => (job_error 404 "Job not found", w)
      | inr (Some job) =>
          if negb (String.eqb (ObjectId.toString (employer job)) (user_id u))
             && negb (String.eqb (role u) "admin")
          then (job_error 401 "Not authorized", w)
          else
            match findByIdAndUpdate (fst w) (job_params_id req)
                    (build_jobFields (job_body req)) with
            | inl err => (on_error err, w)
            | inr (db', updated) =>
                let updatedJob := option_map (populate_employer db') updated in
                match app_get app "io" with
                | Some SocketServer =>
                    (mkJobResponse 200 (OneJob updatedJob),
                     (db', (snd w ++ [mkBroadcast "jobUpdated" updatedJob])%list))
                | None => (server_error, (db', snd w))
                end
            end
      end
  end.

(** GET /employer/me, behind [authenticateJWT] and
    [authorizeEmployer]. *)
Definition myJobs (req : JobRequest) (w : JobWorld)
  : JobResponse * JobWorld :=
  match job_user req with
  | None => (unauthenticated, w)
  | Some u =>
      if negb (String.eqb (role u) "employer")
      then (job_error 403 "Access denied. Employers only.", w)
      else
        match find_by_employer (fst w) (user_id u) with
        | inl _ => (server_error, w)
        | inr jobs => (mkJobResponse 200 (JobList jobs), w)
        end
  end.

End JobRoutes.

(** What one job may look like after a PUT: the fields no request can
    touch are the same, and no required text became empty. *)
Definition job_kept (old new : Job) : Prop :=
  job_oid new = job_oid old /\
  employer new = employer old /\
  company new = company old /\
  job_createdAt new = job_createdAt old /\
  (title old <> "" -> title new <> "") /\
  (description old <> "" -> description new <> "") /\
  (location old <> "" -> location new <> "") /\
  (employmentType old <> "" -> employmentType new <> "").

(** ** A concrete ledger

    One employer, one admin, two candidates, an active job and an
    inactive one; used to run the routes on explicit requests. *)
Module Scenario.

Definition employerE : ObjectId.t := "e00000000000000000000001".
Definition adminA : ObjectId.t := "ad0000000000000000000001".
Definition candidateC1 : ObjectId.t := "c00000000000000000000001".
Definition candidateC2 : ObjectId.t := "c00000000000000000000002".
Definition jobJ : ObjectId.t := "0123456789abcdef01234567".
Definition jobK : ObjectId.t := "0123456789abcdef0123beef".
Definition appId1 : ObjectId.t := "a00000000000000000000001".
Definition appId2 : ObjectId.t := "a00000000000000000000002".
Definition appId3 : ObjectId.t := "a00000000000000000000003".

Definition J : Job :=
  mkJob jobJ "Compiler engineer" "Acme" "Paris" "Work on the back end"
    ["OCaml"] None "full-time" employerE true None 100.

Definition K : Job :=
  mkJob jobK "Tester" "Acme" "Lyon" "Closed position"
    [] None "contract" employerE false None 50.

Definition people : list UserDoc :=
  [mkUserDoc employerE "Eve" "eve@acme.test" "employer" (Some "Acme");
   mkUserDoc adminA "Ada" "ada@board.test" "admin" None;
   mkUserDoc candidateC1 "Carl" "carl@mail.test" "candidate" None;
   mkUserDoc candidateC2 "Cleo" "cleo@mail.test" "candidate" None].

(** The store before anybody applied. *)
Definition db0 : Db := mkDb people [J; K] [].

Definition application1 : Application :=
  mkApplication appId1 jobJ candidateC1 "carl.pdf" (Some "Dear Eve")
    "pending" 200.

Definition application2 : Application :=
  mkApplication appId2 jobJ candidateC2 "cleo.pdf" None "reviewing" 300.

(** The store after both candidates applied to [J]. *)
Definition db2 : Db := mkDb people [J; K] [application1; application2].

(** The application that wires the socket server the way the routes
    read it, [app.set('io', io)]. *)
Definition wired_app : App := app_set server_app "io" SocketServer.

Definition as_user (id r : string) : option User := Some (mkUser id r).

Definition apply_request (who jobId : string) (cv : option string)
  : Request :=
  mkRequest (as_user who "candidate") "" "" jobId cv (Some "Dear Eve") None.

Definition list_request (who r jobId : string) : Request :=
  mkRequest (as_user who r) "" jobId "" None None None.

Definition status_request (who r appId : string) (s : option string)
  : Request :=
  mkRequest (as_user who r) appId "" "" None None s.

Definition env1 : Env := mkEnv 200 appId1.
Definition env3 : Env := mkEnv 400 appId3.

End Scenario.

(** * Properties *)

(** ** Basic facts *)

Lemma oid_eqb_eq (a b : ObjectId.t) : ObjectId.eqb a b = true <-> a = b.
Proof. unfold ObjectId.eqb. apply String.eqb_eq. Qed.

Lemma oid_eqb_refl (a : ObjectId.t) : ObjectId.eqb a a = true.
Proof. apply oid_eqb_eq. reflexivity. Qed.

Lemma oid_eqb_neq (a b : ObjectId.t) : ObjectId.eqb a b = false <-> a <> b.
Proof. unfold ObjectId.eqb. apply String.eqb_neq. Qed.

Lemma find_all_false {A} (f : A -> bool) (l : list A) :
  (forall x, In x l -> f x = false) -> find f l = None.
Proof.
  induction l as [|x l IH]; intros H; simpl.
  - reflexivity.
  - rewrite (H x (or_introl eq_refl)). apply IH.
    intros y Hy. apply H. right. exact Hy.
Qed.

Lemma includes_In (l : list string) (s : string) :
  includes l s = true <-> In s l.
Proof.
  induction l as [|x l IH]; simpl.
  - split; [discriminate | tauto].
  - rewrite orb_true_iff, IH, String.eqb_eq. tauto.
Qed.

(** The four values of the status enum. *)
Lemma valid_status_iff (s : option string) :
  Routes.valid_status s = true <->
  s = Some "pending" \/ s = Some "reviewing" \/ s = Some "rejected"
  \/ s = Some "accepted".
Proof.
  unfold Routes.valid_status. destruct s as [v|].
  - rewrite includes_In. unfold status_enum. cbn [In]. split.
    + intros [<- | [<- | [<- | [<- | []]]]]; auto.
    + intros [H | [H | [H | H]]]; injection H as <-; auto.
  - split; [discriminate|].
    intros [H | [H | [H | H]]]; discriminate.
Qed.

Arguments includes _ _ : simpl never.

(** Unfolding of the routes down to the store primitives. *)
Ltac unfold_route :=
  unfold Routes.create, Routes.listByCandidate, Routes.listByJob,
    Routes.updateStatus, route, authenticateJWT, authorizeCandidate,
    authorizeEmployer, has_role,
    Routes.create_handler, Routes.create_body, Routes.create_check,
    Routes.create_commit, Routes.save_new,
    Routes.listByCandidate_handler, Routes.listByCandidate_body,
    Routes.listByJob_handler, Routes.listByJob_body,
    Routes.updateStatus_handler, Routes.updateStatus_body,
    try_catch, bind, query, write, send, ret, throw, req_user, emit_to.

(** Running a handler: resolve each [match] whose scrutinee a
    hypothesis decides. *)
Ltac run :=
  repeat (cbn [negb fst snd ret];
          match goal with
          | H : ?x = _ |- context [match ?x with _ => _ end] => rewrite H
          | H : ?x = _ |- context [negb ?x] => rewrite H
          | H : ?x = _ |- context [String.eqb ?x _] => rewrite H
          | |- context [String.eqb ?a ?a] => rewrite String.eqb_refl
          end);
  cbn [negb fst snd ret].

Ltac break_match :=
  match goal with
  | |- context [match ?x with _ => _ end] => destruct x eqn:?
  end.

(** ** create on a job that is absent or not active *)

(** For a jobId that is an object id: a create call by a candidate
    whose jobId names no job with isActive = true, be the job absent
    or present with isActive = false, fails with NotFound and leaves
    the store and the event log as they were. *)
Theorem create_no_active_job_not_found
    (app : App) (env : Env) (req : Request) (w : World)
    (u : User) (j : ObjectId.t) :
  user req = Some u ->
  role u = "candidate" ->
  ObjectId.cast (body_jobId req) = Some j ->
  (forall jb, In jb (jobs (fst w)) -> job_oid jb = j -> isActive jb = false) ->
  error_kind (fst (Routes.create app env req w)) = Some NotFound /\
  snd (Routes.create app env req w) = w.
Proof.
  intros Hu Hr Hc Hnone.
  unfold_route. rewrite Hu, Hr. simpl.
  unfold JobModel.findOne_active, cast_id. rewrite Hc.
  rewrite find_all_false.
  - simpl. split; reflexivity.
  - intros jb Hin. destruct (ObjectId.eqb (job_oid jb) j) eqn:E; simpl.
    + apply oid_eqb_eq in E. apply Hnone; assumption.
    + reflexivity.
Qed.

Lemma create_no_active_job_not_found_witness :
  error_kind (fst (Routes.create server_app Scenario.env3
                     (Scenario.apply_request Scenario.candidateC1
                        Scenario.jobK (Some "carl.pdf"))
                     (Scenario.db2, []))) = Some NotFound /\
  snd (Routes.create server_app Scenario.env3
         (Scenario.apply_request Scenario.candidateC1 Scenario.jobK
            (Some "carl.pdf"))
         (Scenario.db2, [])) = (Scenario.db2, []).
Proof.
  apply (create_no_active_job_not_found server_app Scenario.env3
           (Scenario.apply_request Scenario.candidateC1 Scenario.jobK
              (Some "carl.pdf"))
           (Scenario.db2, [])
           (mkUser Scenario.candidateC1 "candidate") Scenario.jobK).
  - reflexivity.
  - reflexivity.
  - vm_compute. reflexivity.
  - intros jb Hin Hid. simpl in Hin.
    destruct Hin as [H | [H | H]]; subst; try reflexivity.
    + vm_compute in Hid. discriminate.
    + contradiction.
Defined.

(** POST / has no branch for the cast error in its catch block: a
    jobId that is not a well-formed object id is answered 500, and
    nothing is written. *)
Lemma create_malformed_job_id (app : App) (env : Env) (req : Request)
    (w : World) (u : User) :
  user req = Some u ->
  role u = "candidate" ->
  ObjectId.cast (body_jobId req) = None ->
  Routes.create app env req w = (Routes.server_error, w).
Proof.
  intros Hu Hr Hc. unfold_route. rewrite Hu, Hr. simpl.
  unfold JobModel.findOne_active, cast_id. rewrite Hc. reflexivity.
Qed.

(** ** updateStatus: the order of the checks *)

(** The role gate comes first: a requester whose role is not
    employer is answered 403 whatever else the request holds. *)
Lemma updateStatus_not_employer (app : App) (req : Request) (w : World)
    (u : User) :
  user req = Some u ->
  role u <> "employer" ->
  Routes.updateStatus app req w
  = (error_response 403 "Access denied. Employers only.", w).
Proof.
  intros Hu Hr. unfold_route. rewrite Hu.
  apply String.eqb_neq in Hr. rewrite Hr. reflexivity.
Qed.

(** Then the status: a value outside the enum is answered 400 before
    the application is looked up. *)
Lemma updateStatus_invalid_status (app : App) (req : Request) (w : World)
    (u : User) :
  user req = Some u ->
  role u = "employer" ->
  Routes.valid_status (body_status req) = false ->
  Routes.updateStatus app req w = (error_response 400 "Invalid status", w).
Proof.
  intros Hu Hr Hs. unfold_route. rewrite Hu, Hr. simpl.
  unfold Routes.valid_status in Hs.
  destruct (body_status req) as [s|]; [rewrite Hs|]; reflexivity.
Qed.

(** Then the application: with a valid status, an id that is
    malformed or names no stored application is answered 404. *)
Lemma updateStatus_no_application (app : App) (req : Request) (w : World)
    (u : User) :
  user req = Some u ->
  role u = "employer" ->
  Routes.valid_status (body_status req) = true ->
  (forall a, In a (applications (fst w)) ->
             ObjectId.cast (params_id req) <> Some (app_oid a)) ->
  Routes.updateStatus app req w
  = (error_response 404 "Application not found", w).
Proof.
  intros Hu Hr Hs Hnone. unfold_route. rewrite Hu, Hr. simpl.
  unfold Routes.valid_status in Hs.
  destruct (body_status req) as [s|]; [|discriminate]. rewrite Hs. simpl.
  unfold ApplicationModel.findById, cast_id.
  destruct (ObjectId.cast (params_id req)) as [o|] eqn:Hc; simpl.
  - rewrite find_all_false; [reflexivity|].
    intros a Hin. apply oid_eqb_neq. intros Heq. subst o.
    exact (Hnone a Hin eq_refl).
  - reflexivity.
Qed.

(** C5 (amended). When no application has the given id, an
    updateStatus call by an employer fails with NotFound if newStatus
    is one of the four enumerated values and with BadRequest if it is
    not: the status is validated before the application is looked up.
    Nothing is written in either case. *)
Theorem updateStatus_missing_application
    (app : App) (req : Request) (w : World) (u : User) :
  user req = Some u ->
  role u = "employer" ->
  (forall a, In a (applications (fst w)) ->
             ObjectId.cast (params_id req) <> Some (app_oid a)) ->
  error_kind (fst (Routes.updateStatus app req w))
  = Some (if Routes.valid_status (body_status req)
          then NotFound else BadRequest) /\
  snd (Routes.updateStatus app req w) = w.
Proof.
  intros Hu Hr Hnone.
  destruct (Routes.valid_status (body_status req)) eqn:Hs.
  - rewrite (updateStatus_no_application app req w u Hu Hr Hs Hnone).
    split; reflexivity.
  - rewrite (updateStatus_invalid_status app req w u Hu Hr Hs).
    split; reflexivity.
Qed.

Lemma updateStatus_missing_application_witness :
  error_kind (fst (Routes.updateStatus server_app
                     (Scenario.status_request Scenario.employerE "employer"
                        Scenario.appId3 (Some "accepted"))
                     (Scenario.db2, [])))
  = Some NotFound.
Proof.
  apply (updateStatus_missing_application server_app
           (Scenario.status_request Scenario.employerE "employer"
              Scenario.appId3 (Some "accepted"))
           (Scenario.db2, [])
           (mkUser Scenario.employerE "employer")).
  - reflexivity.
  - reflexivity.
  - intros a Hin. simpl in Hin.
    destruct Hin as [H | [H | H]]; subst; try contradiction;
      vm_compute; discriminate.
Defined.

(** C5 as stated fails: no application has id [appId3], the status
    "archived" is outside the enum, and the call is answered
    BadRequest, not NotFound. *)
Lemma updateStatus_missing_application_bad_status :
  (forall a, In a (applications Scenario.db2) ->
             ObjectId.cast Scenario.appId3 <> Some (app_oid a)) /\
  error_kind (fst (Routes.updateStatus server_app
                     (Scenario.status_request Scenario.employerE "employer"
                        Scenario.appId3 (Some "archived"))
                     (Scenario.db2, [])))
  = Some BadRequest /\
  error_kind (fst (Routes.updateStatus server_app
                     (Scenario.status_request Scenario.employerE "employer"
                        Scenario.appId3 (Some "archived"))
                     (Scenario.db2, [])))
  <> Some NotFound.
Proof.
  split; [|split].
  - intros a Hin. simpl in Hin.
    destruct Hin as [H | [H | H]]; subst; try contradiction;
      vm_compute; discriminate.
  - vm_compute. reflexivity.
  - vm_compute. discriminate.
Qed.

(** ** Malformed ids *)

(** C10 (amended). With an id that is not a well-formed object id,
    listByJob fails with NotFound, and updateStatus called by an
    employer fails with NotFound when newStatus is one of the four
    enumerated values and with BadRequest when it is not; neither
    fails with Internal and neither changes the store or the log. *)
Theorem malformed_id_not_internal (req : Request) (w : World) (u : User) :
  user req = Some u ->
  (ObjectId.cast (params_jobId req) = None ->
   error_kind (fst (Routes.listByJob req w)) = Some NotFound /\
   snd (Routes.listByJob req w) = w) /\
  (forall app,
     role u = "employer" ->
     ObjectId.cast (params_id req) = None ->
     error_kind (fst (Routes.updateStatus app req w))
     = Some (if Routes.valid_status (body_status req)
             then NotFound else BadRequest) /\
     snd (Routes.updateStatus app req w) = w).
Proof.
  intros Hu. split.
  - intros Hc. unfold_route. rewrite Hu. simpl.
    unfold JobModel.findById, cast_id. rewrite Hc. simpl.
    split; reflexivity.
  - intros app Hr Hc.
    destruct (Routes.valid_status (body_status req)) eqn:Hs.
    + rewrite (updateStatus_no_application app req w u Hu Hr Hs).
      * split; reflexivity.
      * intros a _. rewrite Hc. discriminate.
    + rewrite (updateStatus_invalid_status app req w u Hu Hr Hs).
      split; reflexivity.
Qed.

Lemma malformed_id_not_internal_witness :
  error_kind (fst (Routes.listByJob
                     (Scenario.list_request Scenario.employerE "employer"
                        "not-an-id")
                     (Scenario.db2, [])))
  = Some NotFound /\
  error_kind (fst (Routes.updateStatus server_app
                     (mkRequest
                        (Scenario.as_user Scenario.employerE "employer")
                        "not-an-id" "not-an-id" "" None None
                        (Some "accepted"))
                     (Scenario.db2, [])))
  = Some NotFound.
Proof.
  pose proof (malformed_id_not_internal
                (Scenario.list_request Scenario.employerE "employer"
                   "not-an-id")
                (Scenario.db2, [])
                (mkUser Scenario.employerE "employer") eq_refl) as [H1 _].
  pose proof (malformed_id_not_internal
                (mkRequest (Scenario.as_user Scenario.employerE "employer")
                   "not-an-id" "not-an-id" "" None None (Some "accepted"))
                (Scenario.db2, [])
                (mkUser Scenario.employerE "employer") eq_refl) as [_ H2].
  split.
  - apply H1. reflexivity.
  - apply (H2 server_app); reflexivity.
Defined.

(** C10 as stated fails for updateStatus: the id "not-an-id" is
    malformed, the status "archived" is outside the enum, and the
    call is answered BadRequest, not NotFound. *)
Lemma updateStatus_malformed_id_bad_status :
  ObjectId.cast "not-an-id" = None /\
  error_kind (fst (Routes.updateStatus server_app
                     (Scenario.status_request Scenario.employerE "employer"
                        "not-an-id" (Some "archived"))
                     (Scenario.db2, [])))
  = Some BadRequest /\
  error_kind (fst (Routes.updateStatus server_app
                     (Scenario.status_request Scenario.employerE "employer"
                        "not-an-id" (Some "archived"))
                     (Scenario.db2, [])))
  <> Some NotFound.
Proof.
  split; [|split].
  - reflexivity.
  - vm_compute. reflexivity.
  - vm_compute. discriminate.
Qed.

(** ** updateStatus: who is authorized *)

(** What the route answers once the role gate, the status check and
    the two lookups are passed and the requester is not the employer
    of the job. *)
Lemma updateStatus_not_owner (app : App) (req : Request) (w : World)
    (u : User) (a : Application) (j : Job) :
  user req = Some u ->
  role u = "employer" ->
  Routes.valid_status (body_status req) = true ->
  ApplicationModel.findById (fst w) (params_id req) = inr (Some a) ->
  JobModel.findById_oid (fst w) (job a) = Some j ->
  user_id u <> ObjectId.toString (employer j) ->
  Routes.updateStatus app req w = (error_response 401 "Not authorized", w).
Proof.
  intros Hu Hr Hs Ha Hj Hne.
  assert (E : String.eqb (ObjectId.toString (employer j)) (user_id u) = false).
  { apply String.eqb_neq. intros H. apply Hne. symmetry. exact H. }
  unfold Routes.valid_status in Hs.
  destruct (body_status req) as [s|] eqn:Hb; [|discriminate].
  unfold_route. run. reflexivity.
Qed.

(** What the route does for the employer of the job: the status is
    written, and then the notification decides between 200 and 500. *)
Lemma updateStatus_owner (app : App) (req : Request) (w : World)
    (u : User) (a : Application) (j : Job) (s : string) :
  user req = Some u ->
  role u = "employer" ->
  body_status req = Some s ->
  includes status_enum s = true ->
  ApplicationModel.findById (fst w) (params_id req) = inr (Some a) ->
  JobModel.findById_oid (fst w) (job a) = Some j ->
  user_id u = ObjectId.toString (employer j) ->
  Routes.updateStatus app req w
  = match app_get app "io" with
    | Some _ =>
        (mkResponse 200 (ApplicationDoc (ApplicationModel.set_status s a)),
         (ApplicationModel.update_status (fst w) a s,
          (snd w ++ [mkEvent ("user-" ++ ObjectId.toString (candidate a))
                       "applicationStatusUpdated"
                       [("applicationId", ObjectId.toString (app_oid a));
                        ("jobTitle", title j);
                        ("newStatus", s)]])%list))
    | None =>
        (Routes.server_error,
         (ApplicationModel.update_status (fst w) a s, snd w))
    end.
Proof.
  intros Hu Hr Hb Hs Ha Hj Hid. symmetry in Hid. unfold_route. run.
  destruct (app_get app "io") as [[]|]; reflexivity.
Qed.

(** C1 (amended). When the application and its job exist and
    newStatus is one of the four enumerated values, updateStatus
    fails with Unauthorized exactly when the requester's role is not
    employer or the requester's id differs from the job's employer
    id.  There is no admin override: a requester with role admin is
    always refused. *)
Theorem updateStatus_unauthorized_iff
    (app : App) (req : Request) (w : World)
    (u : User) (a : Application) (j : Job) :
  user req = Some u ->
  Routes.valid_status (body_status req) = true ->
  ApplicationModel.findById (fst w) (params_id req) = inr (Some a) ->
  JobModel.findById_oid (fst w) (job a) = Some j ->
  (error_kind (fst (Routes.updateStatus app req w)) = Some Unauthorized
   <-> (role u <> "employer"
        \/ user_id u <> ObjectId.toString (employer j))) /\
  (role u = "admin" ->
   error_kind (fst (Routes.updateStatus app req w)) = Some Unauthorized).
Proof.
  intros Hu Hs Ha Hj.
  assert (Hgate : role u <> "employer" ->
                  error_kind (fst (Routes.updateStatus app req w))
                  = Some Unauthorized).
  { intros Hr. rewrite (updateStatus_not_employer app req w u Hu Hr).
    reflexivity. }
  split.
  - split.
    + intros Hk.
      destruct (String.eqb (role u) "employer") eqn:Er.
      * apply String.eqb_eq in Er. right. intros Hid.
        unfold Routes.valid_status in Hs.
        destruct (body_status req) as [s|] eqn:Hb; [|discriminate].
        rewrite (updateStatus_owner app req w u a j s Hu Er Hb Hs Ha Hj Hid)
          in Hk.
        destruct (app_get app "io"); discriminate.
      * apply String.eqb_neq in Er. left. exact Er.
    + intros [Hr | Hid].
      * apply Hgate. exact Hr.
      * destruct (String.eqb (role u) "employer") eqn:Er.
        -- apply String.eqb_eq in Er.
           rewrite (updateStatus_not_owner app req w u a j Hu Er Hs Ha Hj Hid).
           reflexivity.
        -- apply String.eqb_neq in Er. apply Hgate. exact Er.
  - intros Hadmin. apply Hgate. rewrite Hadmin. discriminate.
Qed.

Lemma updateStatus_unauthorized_iff_witness :
  error_kind (fst (Routes.updateStatus Scenario.wired_app
                     (Scenario.status_request Scenario.candidateC2 "employer"
                        Scenario.appId1 (Some "accepted"))
                     (Scenario.db2, [])))
  = Some Unauthorized.
Proof.
  destruct (updateStatus_unauthorized_iff Scenario.wired_app
              (Scenario.status_request Scenario.candidateC2 "employer"
                 Scenario.appId1 (Some "accepted"))
              (Scenario.db2, [])
              (mkUser Scenario.candidateC2 "employer")
              Scenario.application1 Scenario.J
              eq_refl eq_refl eq_refl eq_refl) as [[_ H] _].
  apply H. right. vm_compute. discriminate.
Defined.

(** C1 as stated fails: an admin who does not own the job is refused
    by the employer-only gate, with or without the socket server
    registered, although the claim lets every admin through. *)
Lemma updateStatus_admin_refused :
  ApplicationModel.findById Scenario.db2 Scenario.appId1
  = inr (Some Scenario.application1) /\
  JobModel.findById_oid Scenario.db2 (job Scenario.application1)
  = Some Scenario.J /\
  Scenario.adminA <> employer Scenario.J /\
  fst (Routes.updateStatus Scenario.wired_app
         (Scenario.status_request Scenario.adminA "admin"
            Scenario.appId1 (Some "accepted"))
         (Scenario.db2, []))
  = error_response 403 "Access denied. Employers only." /\
  fst (Routes.updateStatus server_app
         (Scenario.status_request Scenario.adminA "admin"
            Scenario.appId1 (Some "accepted"))
         (Scenario.db2, []))
  = error_response 403 "Access denied. Employers only." /\
  ~ (error_kind
       (fst (Routes.updateStatus Scenario.wired_app
               (Scenario.status_request Scenario.adminA "admin"
                  Scenario.appId1 (Some "accepted"))
               (Scenario.db2, [])))
     = Some Unauthorized
     <-> (Scenario.adminA <> employer Scenario.J /\ "admin" <> "admin")).
Proof.
  repeat split; try (vm_compute; reflexivity).
  - vm_compute. discriminate.
  - intros [H _].
    assert (Hk : error_kind
                   (fst (Routes.updateStatus Scenario.wired_app
                           (Scenario.status_request Scenario.adminA "admin"
                              Scenario.appId1 (Some "accepted"))
                           (Scenario.db2, [])))
                 = Some Unauthorized) by (vm_compute; reflexivity).
    destruct (H Hk) as [_ Hne]. apply Hne. reflexivity.
Qed.

(** ** Sorting newest first *)

Lemma insert_desc_perm (a : Application) (l : list Application) :
  Permutation (a :: l) (insert_desc a l).
Proof.
  induction l as [|b l IH]; simpl.
  - apply Permutation_refl.
  - destruct (createdAt b <=? createdAt a)%Z.
    + apply Permutation_refl.
    + apply perm_trans with (b :: a :: l).
      * apply perm_swap.
      * apply perm_skip. exact IH.
Qed.

Lemma sort_desc_perm (l : list Application) : Permutation l (sort_desc l).
Proof.
  induction l as [|a l IH]; simpl.
  - apply perm_nil.
  - apply perm_trans with (a :: sort_desc l).
    + apply perm_skip. exact IH.
    + apply insert_desc_perm.
Qed.

Lemma insert_desc_sorted (a : Application) (l : list Application) :
  StronglySorted newer_or_equal l ->
  StronglySorted newer_or_equal (insert_desc a l).
Proof.
  induction 1 as [|b l Hs IH Hb]; simpl.
  - constructor; constructor.
  - destruct (createdAt b <=? createdAt a)%Z eqn:E.
    + apply Z.leb_le in E. constructor.
      * constructor; assumption.
      * constructor; [exact E|].
        rewrite Forall_forall in *. intros c Hc.
        unfold newer_or_equal in *. specialize (Hb c Hc). lia.
    + apply Z.leb_gt in E. constructor; [exact IH|].
      rewrite Forall_forall in *. intros c Hc.
      apply (Permutation_in _ (Permutation_sym (insert_desc_perm a l))) in Hc.
      destruct Hc as [<- | Hc].
      * unfold newer_or_equal. lia.
      * apply Hb. exact Hc.
Qed.

Lemma sort_desc_sorted (l : list Application) :
  StronglySorted newer_or_equal (sort_desc l).
Proof.
  induction l as [|a l IH]; simpl.
  - constructor.
  - apply insert_desc_sorted. exact IH.
Qed.

Lemma sort_desc_In (l : list Application) (a : Application) :
  In a (sort_desc l) <-> In a l.
Proof.
  split; intros H.
  - apply (Permutation_in _ (Permutation_sym (sort_desc_perm l))). exact H.
  - apply (Permutation_in _ (sort_desc_perm l)). exact H.
Qed.

(** ** listByJob *)

Lemma populate_candidate_joined (db : Db) (a : Application) :
  joined_with_candidate db (populate_candidate db a).
Proof.
  unfold joined_with_candidate, populate_candidate. simpl.
  destruct (find (fun usr => ObjectId.eqb (user_oid usr) (candidate a))
              (users db)) as [usr|] eqn:E; simpl.
  - apply find_some in E. destruct E as [Hin Heq].
    apply oid_eqb_eq in Heq. exists usr. repeat split; assumption.
  - intros usr Hin. apply oid_eqb_neq.
    exact (find_none _ _ E usr Hin).
Qed.

(** GET /job/:jobId writes nothing. *)
Lemma listByJob_pure (req : Request) (w : World) :
  snd (Routes.listByJob req w) = w.
Proof.
  destruct (user req) as [u|] eqn:Hu; [|unfold_route; rewrite Hu; reflexivity].
  destruct (JobModel.findById (fst w) (params_jobId req))
    as [e|[jb|]] eqn:Hj.
  - unfold_route. run. reflexivity.
  - destruct (String.eqb (ObjectId.toString (employer jb)) (user_id u))
      eqn:E.
    + destruct (find_by_job (fst w) (params_jobId req)) eqn:Hf;
        unfold_route; run; reflexivity.
    + unfold_route. run. reflexivity.
  - unfold_route. run. reflexivity.
Qed.

(** C9. listByJob fails with NotFound when no job has the given id,
    fails with Unauthorized when the job exists and the requester is
    not its employer, and otherwise returns exactly the applications
    whose job field is the queried id, each joined with the name and
    email of its candidate, newest first.  The store and the event
    log are never changed. *)
Theorem listByJob_spec (req : Request) (w : World) (u : User) :
  user req = Some u ->
  snd (Routes.listByJob req w) = w /\
  ((forall jb, In jb (jobs (fst w)) ->
               ObjectId.cast (params_jobId req) <> Some (job_oid jb)) ->
   error_kind (fst (Routes.listByJob req w)) = Some NotFound) /\
  (forall jb,
     JobModel.findById (fst w) (params_jobId req) = inr (Some jb) ->
     (user_id u <> ObjectId.toString (employer jb) ->
      error_kind (fst (Routes.listByJob req w)) = Some Unauthorized) /\
     (user_id u = ObjectId.toString (employer jb) ->
      exists l,
        fst (Routes.listByJob req w) = mkResponse 200 (ApplicationsOfJob l) /\
        Permutation (map doc l)
          (filter (fun a => ObjectId.eqb (job a) (job_oid jb))
             (applications (fst w))) /\
        (forall a, In a (map doc l) <->
                   In a (applications (fst w)) /\ job a = job_oid jb) /\
        StronglySorted newer_or_equal (map doc l) /\
        Forall (joined_with_candidate (fst w)) l)).
Proof.
  intros Hu. split; [|split].
  - apply listByJob_pure.
  - intros Hnone. unfold_route. rewrite Hu. cbn [fst snd].
    unfold JobModel.findById, cast_id.
    destruct (ObjectId.cast (params_jobId req)) as [o|] eqn:Hc.
    + unfold JobModel.findById_oid. rewrite find_all_false; [reflexivity|].
      intros jb Hin. apply oid_eqb_neq. intros Heq. subst o.
      exact (Hnone jb Hin eq_refl).
    + reflexivity.
  - intros jb Hj. split.
    + intros Hne.
      assert (E : String.eqb (ObjectId.toString (employer jb)) (user_id u)
                  = false).
      { apply String.eqb_neq. intros H. apply Hne. symmetry. exact H. }
      unfold_route. run. reflexivity.
    + intros Hid. symmetry in Hid.
      assert (Ho : ObjectId.cast (params_jobId req) = Some (job_oid jb)).
      { unfold JobModel.findById, cast_id in Hj.
        destruct (ObjectId.cast (params_jobId req)) as [o|]; [|discriminate].
        injection Hj as Hj. unfold JobModel.findById_oid in Hj.
        apply find_some in Hj. destruct Hj as [_ Heq].
        apply oid_eqb_eq in Heq. rewrite Heq. reflexivity. }
      assert (Hf : find_by_job (fst w) (params_jobId req)
                   = inr (map (populate_candidate (fst w))
                            (sort_desc
                               (filter (fun a => ObjectId.eqb (job a)
                                                   (job_oid jb))
                                  (applications (fst w)))))).
      { unfold find_by_job, cast_id. rewrite Ho. reflexivity. }
      eexists. split; [|split; [|split; [|split]]].
      * unfold_route. run. reflexivity.
      * rewrite map_map. cbn [doc populate_candidate]. rewrite map_id.
        apply Permutation_sym. apply sort_desc_perm.
      * intros a. rewrite map_map. cbn [doc populate_candidate].
        rewrite map_id, sort_desc_In, filter_In, oid_eqb_eq. tauto.
      * rewrite map_map. cbn [doc populate_candidate]. rewrite map_id.
        apply sort_desc_sorted.
      * apply Forall_forall. intros p Hp. apply in_map_iff in Hp.
        destruct Hp as [a [<- _]]. apply populate_candidate_joined.
Qed.

Lemma listByJob_spec_witness :
  exists l,
    fst (Routes.listByJob
           (Scenario.list_request Scenario.employerE "employer" Scenario.jobJ)
           (Scenario.db2, []))
    = mkResponse 200 (ApplicationsOfJob l) /\
    map doc l = [Scenario.application2; Scenario.application1].
Proof.
  destruct (listByJob_spec
              (Scenario.list_request Scenario.employerE "employer"
                 Scenario.jobJ)
              (Scenario.db2, [])
              (mkUser Scenario.employerE "employer") eq_refl)
    as [_ [_ H]].
  destruct (H Scenario.J eq_refl) as [_ Hl].
  destruct (Hl eq_refl) as [l [Hresp _]].
  exists l. split; [exact Hresp|].
  vm_compute in Hresp. injection Hresp as <-. reflexivity.
Defined.

(** ** The routes, case by case *)

(** POST / for any request: each line is one exit of the handler. *)
Lemma create_flat (app : App) (env : Env) (req : Request) (w : World) :
  Routes.create app env req w =
  match user req with
  | None => (unauthenticated, w)
  | Some u =>
      if negb (String.eqb (role u) "candidate")
      then (error_response 403 "Access denied. Candidates only.", w)
      else
        match JobModel.findOne_active (fst w) (body_jobId req) with
        | inl _ => (Routes.server_error, w)
        | inr None =>
            (error_response 404 "Job not found or no longer active", w)
        | inr (Some jb) =>
            match ApplicationModel.findOne_pair (fst w) (body_jobId req)
                    (user_id u) with
            | inl _ => (Routes.server_error, w)
            | inr (Some _) =>
                (error_response 400 "You have already applied for this job", w)
            | inr None =>
                match ApplicationModel.build (new_oid env) (now env)
                        (body_jobId req) (user_id u) (body_resume req)
                        (body_coverLetter req) with
                | inl _ => (Routes.server_error, w)
                | inr a =>
                    match ApplicationModel.insert (fst w) a with
                    | inl _ => (Routes.server_error, w)
                    | inr db' =>
                        match app_get app "io" with
                        | Some _ =>
                            (mkResponse 200 (ApplicationDoc a),
                             (db', (snd w ++ [newApplication_event jb a])%list))
                        | None => (Routes.server_error, (db', snd w))
                        end
                    end
                end
            end
        end
  end.
Proof.
  unfold_route.
  destruct (user req) as [u|] eqn:Hu; [|reflexivity].
  destruct (String.eqb (role u) "candidate") eqn:Hr; [|reflexivity].
  cbn [negb fst snd].
  destruct (JobModel.findOne_active (fst w) (body_jobId req))
    as [e|[jb|]] eqn:Hj; run; try reflexivity.
  destruct (ApplicationModel.findOne_pair (fst w) (body_jobId req) (user_id u))
    as [e|[x|]] eqn:Hx; run; try reflexivity.
  destruct (ApplicationModel.build (new_oid env) (now env) (body_jobId req)
              (user_id u) (body_resume req) (body_coverLetter req))
    as [e|a] eqn:Hb; run; try reflexivity.
  destruct (ApplicationModel.insert (fst w) a) as [e|db'] eqn:Hi; run;
    try reflexivity.
  destruct (app_get app "io") as [[]|]; reflexivity.
Qed.

(** PUT /:id for any request. *)
Lemma updateStatus_flat (app : App) (req : Request) (w : World) :
  Routes.updateStatus app req w =
  match user req with
  | None => (unauthenticated, w)
  | Some u =>
      if negb (String.eqb (role u) "employer")
      then (error_response 403 "Access denied. Employers only.", w)
      else
        match body_status req with
        | None => (error_response 400 "Invalid status", w)
        | Some s =>
            if negb (includes status_enum s)
            then (error_response 400 "Invalid status", w)
            else
              match ApplicationModel.findById (fst w) (params_id req) with
              | inl _ | inr None =>
                  (error_response 404 "Application not found", w)
              | inr (Some a) =>
                  match JobModel.findById_oid (fst w) (job a) with
                  | None => (error_response 401 "Not authorized", w)
                  | Some jb =>
                      if negb (String.eqb (ObjectId.toString (employer jb))
                                 (user_id u))
                      then (error_response 401 "Not authorized", w)
                      else
                        match app_get app "io" with
                        | Some _ =>
                            (mkResponse 200
                               (ApplicationDoc
                                  (ApplicationModel.set_status s a)),
                             (ApplicationModel.update_status (fst w) a s,
                              (snd w ++ [statusUpdated_event jb a s])%list))
                        | None =>
                            (Routes.server_error,
                             (ApplicationModel.update_status (fst w) a s,
                              snd w))
                        end
                  end
              end
        end
  end.
Proof.
  unfold_route.
  destruct (user req) as [u|] eqn:Hu; [|reflexivity].
  destruct (String.eqb (role u) "employer") eqn:Hr; [|reflexivity].
  cbn [negb fst snd].
  destruct (body_status req) as [s|] eqn:Hb; [|reflexivity].
  destruct (includes status_enum s) eqn:Hs; [|reflexivity].
  cbn [negb].
  destruct (ApplicationModel.findById (fst w) (params_id req))
    as [e|[a|]] eqn:Ha; run.
  - unfold ApplicationModel.findById, cast_id in Ha.
    destruct (ObjectId.cast (params_id req)); [discriminate|].
    injection Ha as <-. reflexivity.
  - destruct (JobModel.findById_oid (fst w) (job a)) as [jb|] eqn:Hj; run;
      try reflexivity.
    destruct (String.eqb (ObjectId.toString (employer jb)) (user_id u)) eqn:E;
      run; try reflexivity.
    destruct (app_get app "io") as [[]|]; reflexivity.
  - reflexivity.
Qed.

(** GET /candidate writes nothing. *)
Lemma listByCandidate_pure (req : Request) (w : World) :
  snd (Routes.listByCandidate req w) = w.
Proof.
  unfold_route.
  destruct (user req) as [u|] eqn:Hu; [|reflexivity].
  destruct (String.eqb (role u) "candidate") eqn:Hr; [|reflexivity].
  destruct (find_by_candidate (fst w) (user_id u)) eqn:Hf; run; reflexivity.
Qed.


(** ** The store primitives *)

Lemma build_inr (oid : ObjectId.t) (t : Z) (jobId userId : string)
    (r c : option string) (a : Application) :
  ApplicationModel.build oid t jobId userId r c = inr a ->
  app_oid a = oid /\
  ObjectId.cast jobId = Some (job a) /\
  ObjectId.cast userId = Some (candidate a) /\
  r = Some (resume a) /\
  resume a <> "" /\
  coverLetter a = c /\
  status a = default_status /\
  createdAt a = t.
Proof.
  unfold ApplicationModel.build, cast_id.
  destruct (ObjectId.cast jobId) as [j|]; [|discriminate].
  destruct (ObjectId.cast userId) as [cd|]; [|discriminate].
  destruct r as [rs|]; [|discriminate].
  destruct (String.eqb rs "") eqn:E; [discriminate|].
  intros H. injection H as <-. cbn.
  apply String.eqb_neq in E. repeat split; try reflexivity. exact E.
Qed.

Lemma findOne_active_inr (db : Db) (jobId : string) (jb : Job) :
  JobModel.findOne_active db jobId = inr (Some jb) ->
  In jb (jobs db) /\ ObjectId.cast jobId = Some (job_oid jb) /\
  isActive jb = true.
Proof.
  unfold JobModel.findOne_active, cast_id.
  destruct (ObjectId.cast jobId) as [o|]; [|discriminate].
  intros H. injection H as H. apply find_some in H.
  destruct H as [Hin Hb]. apply andb_true_iff in Hb.
  destruct Hb as [Ho Ha]. apply oid_eqb_eq in Ho. subst o. auto.
Qed.

Lemma same_pair_true (j c : ObjectId.t) (a : Application) :
  ApplicationModel.same_pair j c a = true <-> pair_of a = (j, c).
Proof.
  unfold ApplicationModel.same_pair, pair_of.
  rewrite andb_true_iff, !oid_eqb_eq. split.
  - intros [-> ->]. reflexivity.
  - intros H. injection H as -> ->. auto.
Qed.

Lemma existsb_same_pair_false (l : list Application) (a : Application) :
  existsb (ApplicationModel.same_pair (job a) (candidate a)) l = false ->
  ~ In (pair_of a) (map pair_of l).
Proof.
  intros H Hin. apply in_map_iff in Hin. destruct Hin as [b [Hb Hin]].
  assert (E : existsb (ApplicationModel.same_pair (job a) (candidate a)) l
              = true).
  { apply existsb_exists. exists b. split; [exact Hin|].
    apply same_pair_true. exact Hb. }
  rewrite H in E. discriminate.
Qed.

Lemma insert_inr (db db' : Db) (a : Application) :
  ApplicationModel.insert db a = inr db' ->
  users db' = users db /\ jobs db' = jobs db /\
  applications db' = (applications db ++ [a])%list /\
  ~ In (pair_of a) (map pair_of (applications db)) /\
  ~ In (app_oid a) (map app_oid (applications db)).
Proof.
  unfold ApplicationModel.insert.
  destruct (existsb (fun b => ObjectId.eqb (app_oid b) (app_oid a))
              (applications db)) eqn:E1; [discriminate|].
  destruct (existsb (ApplicationModel.same_pair (job a) (candidate a))
              (applications db)) eqn:E2; [discriminate|].
  intros H. injection H as <-. cbn. repeat split.
  - apply existsb_same_pair_false. exact E2.
  - intros Hin. apply in_map_iff in Hin. destruct Hin as [b [Hb Hin]].
    assert (E : existsb (fun b => ObjectId.eqb (app_oid b) (app_oid a))
                  (applications db) = true).
    { apply existsb_exists. exists b. split; [exact Hin|].
      apply oid_eqb_eq. exact Hb. }
    rewrite E1 in E. discriminate.
Qed.

(** The unique index at work: a document whose (job, candidate) pair
    is already stored is refused by the insert itself. *)
Lemma insert_duplicate_pair (db : Db) (a b : Application) :
  In b (applications db) ->
  job b = job a ->
  candidate b = candidate a ->
  exists index, ApplicationModel.insert db a = inl (DuplicateKey index).
Proof.
  intros Hin Hj Hc. unfold ApplicationModel.insert.
  destruct (existsb (fun b => ObjectId.eqb (app_oid b) (app_oid a))
              (applications db)).
  - eexists. reflexivity.
  - assert (E : existsb (ApplicationModel.same_pair (job a) (candidate a))
                  (applications db) = true).
    { apply existsb_exists. exists b. split; [exact Hin|].
      apply same_pair_true. unfold pair_of. rewrite Hj, Hc. reflexivity. }
    rewrite E. eexists. reflexivity.
Qed.

Lemma insert_unique_pairs (db db' : Db) (a : Application) :
  unique_pairs db ->
  ApplicationModel.insert db a = inr db' ->
  unique_pairs db'.
Proof.
  unfold unique_pairs. intros Hu Hi.
  apply insert_inr in Hi. destruct Hi as [_ [_ [Happs [Hfresh _]]]].
  rewrite Happs, map_app. cbn [map].
  apply (Permutation_NoDup (Permutation_cons_append _ _)).
  constructor; assumption.
Qed.

Lemma update_status_pairs (db : Db) (a : Application) (s : string) :
  map pair_of (applications (ApplicationModel.update_status db a s))
  = map pair_of (applications db).
Proof.
  unfold ApplicationModel.update_status. cbn [applications].
  rewrite map_map. apply map_ext. intros b.
  destruct (ObjectId.eqb (app_oid b) (app_oid a)); reflexivity.
Qed.

Lemma update_status_unique_pairs (db : Db) (a : Application) (s : string) :
  unique_pairs db -> unique_pairs (ApplicationModel.update_status db a s).
Proof.
  unfold unique_pairs. rewrite update_status_pairs. auto.
Qed.

(** After the status write, the document found under the id carries
    the new status and is otherwise the one that was read. *)
Lemma update_status_stored (db : Db) (id : string) (a : Application)
    (s : string) :
  ApplicationModel.findById db id = inr (Some a) ->
  ApplicationModel.findById (ApplicationModel.update_status db a s) id
  = inr (Some (ApplicationModel.set_status s a)).
Proof.
  unfold ApplicationModel.findById, cast_id.
  destruct (ObjectId.cast id) as [o|]; [|discriminate].
  intros H. injection H as H. f_equal.
  pose proof (find_some _ _ H) as [_ Ho]. apply oid_eqb_eq in Ho.
  unfold ApplicationModel.update_status. cbn [applications].
  revert H. induction (applications db) as [|b l IH]; cbn [find map].
  - discriminate.
  - destruct (ObjectId.eqb (app_oid b) o) eqn:Eb.
    + intros Hb. injection Hb as ->.
      rewrite oid_eqb_refl. cbn [ApplicationModel.set_status app_oid].
      rewrite Eb. reflexivity.
    + intros Hl.
      assert (Ef : app_oid (if ObjectId.eqb (app_oid b) (app_oid a)
                            then ApplicationModel.set_status s b else b)
                   = app_oid b).
      { destruct (ObjectId.eqb (app_oid b) (app_oid a)); reflexivity. }
      rewrite Ef, Eb. apply IH. exact Hl.
Qed.

(** ** The uniqueness invariant *)

Lemma create_commit_unique_pairs (app : App) (env : Env) (req : Request)
    (ju : Job * User) (w : World) :
  unique_pairs (fst w) ->
  unique_pairs (fst (snd (Routes.create_commit app env req ju w))).
Proof.
  intros Hu. destruct ju as [jb u].
  unfold Routes.create_commit, Routes.save_new, bind, emit_to, ret, throw.
  destruct (ApplicationModel.build (new_oid env) (now env) (body_jobId req)
              (user_id u) (body_resume req) (body_coverLetter req))
    as [e|a]; [exact Hu|].
  destruct (ApplicationModel.insert (fst w) a) as [e|db'] eqn:Hi;
    [exact Hu|].
  pose proof (insert_unique_pairs _ _ _ Hu Hi) as Hu'.
  destruct (app_get app "io") as [[]|]; exact Hu'.
Qed.

Lemma run_op_unique_pairs (app : App) (op : Op) (w : World) :
  unique_pairs (fst w) -> unique_pairs (fst (snd (run_op app op w))).
Proof.
  intros Hu. destruct op as [env req|req|req|req]; cbn [run_op].
  - rewrite create_flat.
    repeat break_match; cbn [fst snd]; try exact Hu;
      eapply insert_unique_pairs; eassumption.
  - rewrite listByCandidate_pure. exact Hu.
  - rewrite listByJob_pure. exact Hu.
  - rewrite updateStatus_flat.
    repeat break_match; cbn [fst snd]; try exact Hu;
      apply update_status_unique_pairs; exact Hu.
Qed.

(** C3. At most one application exists per (job, candidate) pair,
    whatever operations run, and the store itself keeps it so: an
    insert of a pair that is already stored is refused with a
    duplicate-key error, every accepted insert keeps the pairs
    distinct, and the insert step of create keeps the invariant even
    when it runs without the check that precedes it in the handler. *)
Theorem unique_pairs_invariant (app : App) (w : World) :
  unique_pairs (fst w) ->
  (forall ops, unique_pairs (fst (run_ops app ops w))) /\
  (forall a db', ApplicationModel.insert (fst w) a = inr db' ->
                 unique_pairs db') /\
  (forall a b, In b (applications (fst w)) ->
               job b = job a -> candidate b = candidate a ->
               exists index,
                 ApplicationModel.insert (fst w) a
                 = inl (DuplicateKey index)) /\
  (forall env req ju,
     unique_pairs (fst (snd (Routes.create_commit app env req ju w)))).
Proof.
  intros Hu. repeat split.
  - intros ops. revert w Hu.
    induction ops as [|op ops IH]; intros w Hu; cbn [run_ops].
    + exact Hu.
    + apply IH. apply run_op_unique_pairs. exact Hu.
  - intros a db' Hi. exact (insert_unique_pairs _ _ _ Hu Hi).
  - intros a b. apply insert_duplicate_pair.
  - intros env req ju. apply create_commit_unique_pairs. exact Hu.
Qed.

Lemma unique_pairs_invariant_witness :
  unique_pairs
    (fst (run_ops Scenario.wired_app
            [Create Scenario.env3
               (Scenario.apply_request Scenario.candidateC1 Scenario.jobJ
                  (Some "carl.pdf"));
             UpdateStatus
               (Scenario.status_request Scenario.employerE "employer"
                  Scenario.appId1 (Some "accepted"));
             ListByJob
               (Scenario.list_request Scenario.employerE "employer"
                  Scenario.jobJ)]
            (Scenario.db2, []))).
Proof.
  assert (H : unique_pairs (fst (Scenario.db2, @nil Event))).
  { unfold unique_pairs. cbn.
    constructor.
    - intros [E | []]. vm_compute in E. discriminate.
    - constructor; [intros [] | constructor]. }
  destruct (unique_pairs_invariant Scenario.wired_app (Scenario.db2, []) H)
    as [Hops _].
  apply Hops.
Defined.

(** Two requests of one candidate for the same job, both past the
    check before either inserts: the second insert is refused by the
    unique index, the handler answers it 500, and one record is
    stored. *)
Lemma create_race_second_insert_refused :
  create_race Scenario.wired_app Scenario.env1 Scenario.env3
    (Scenario.apply_request Scenario.candidateC1 Scenario.jobJ
       (Some "carl.pdf"))
    (Scenario.apply_request Scenario.candidateC1 Scenario.jobJ
       (Some "carl.pdf"))
    (Scenario.db0, [])
  = Some (mkResponse 200 (ApplicationDoc Scenario.application1),
          Routes.server_error,
          (mkDb Scenario.people [Scenario.J; Scenario.K]
             [Scenario.application1],
           [newApplication_event Scenario.J Scenario.application1])).
Proof. vm_compute. reflexivity. Qed.

(** ** create: the record and the notification *)

(** On any application object: when create is answered 200, an
    active job with the given id exists, the candidate had not
    applied to it, and the record that is stored and returned has
    status pending, references that job and the requesting candidate,
    and holds the resume and cover letter of the request. *)
Theorem create_success_record
    (app : App) (env : Env) (req : Request) (w : World) :
  succeeds (fst (Routes.create app env req w)) ->
  exists u jb a,
    user req = Some u /\
    JobModel.findOne_active (fst w) (body_jobId req) = inr (Some jb) /\
    ApplicationModel.findOne_pair (fst w) (body_jobId req) (user_id u)
    = inr None /\
    fst (Routes.create app env req w) = mkResponse 200 (ApplicationDoc a) /\
    applications (fst (snd (Routes.create app env req w)))
    = (applications (fst w) ++ [a])%list /\
    status a = "pending" /\
    job a = job_oid jb /\
    ObjectId.cast (body_jobId req) = Some (job a) /\
    ObjectId.cast (user_id u) = Some (candidate a) /\
    body_resume req = Some (resume a) /\
    coverLetter a = body_coverLetter req.
Proof.
  unfold succeeds. rewrite create_flat.
  destruct (user req) as [u|]; [|discriminate].
  destruct (negb (String.eqb (role u) "candidate")); [discriminate|].
  destruct (JobModel.findOne_active (fst w) (body_jobId req))
    as [e|[jb|]] eqn:Hj; try discriminate.
  destruct (ApplicationModel.findOne_pair (fst w) (body_jobId req) (user_id u))
    as [e|[x|]] eqn:Hx; try discriminate.
  destruct (ApplicationModel.build (new_oid env) (now env) (body_jobId req)
              (user_id u) (body_resume req) (body_coverLetter req))
    as [e|a] eqn:Hb; try discriminate.
  destruct (ApplicationModel.insert (fst w) a) as [e|db'] eqn:Hi;
    try discriminate.
  destruct (app_get app "io") as [[]|]; try discriminate.
  intros _. cbn [fst snd].
  apply build_inr in Hb.
  destruct Hb as [_ [Hcj [Hcc [Hr [_ [Hcl [Hst _]]]]]]].
  apply insert_inr in Hi. destruct Hi as [_ [_ [Happs _]]].
  pose proof (findOne_active_inr _ _ _ Hj) as [_ [Hcj' _]].
  exists u, jb, a. repeat split; try assumption; try reflexivity.
  rewrite Hcj in Hcj'. injection Hcj' as ->. reflexivity.
Qed.

Lemma create_success_record_witness :
  exists a,
    fst (Routes.create Scenario.wired_app Scenario.env1
           (Scenario.apply_request Scenario.candidateC1 Scenario.jobJ
              (Some "carl.pdf"))
           (Scenario.db0, []))
    = mkResponse 200 (ApplicationDoc a) /\
    status a = "pending".
Proof.
  assert (H : succeeds
                (fst (Routes.create Scenario.wired_app Scenario.env1
                        (Scenario.apply_request Scenario.candidateC1
                           Scenario.jobJ (Some "carl.pdf"))
                        (Scenario.db0, [])))).
  { vm_compute. reflexivity. }
  destruct (create_success_record Scenario.wired_app Scenario.env1
              (Scenario.apply_request Scenario.candidateC1 Scenario.jobJ
                 (Some "carl.pdf"))
              (Scenario.db0, []) H)
    as [u [jb [a [_ [_ [_ [Hresp [_ [Hst _]]]]]]]]].
  exists a. split; assumption.
Defined.

(** On any application object: a create that is answered 200 emits
    exactly one event, newApplication to the room
    employer-{job.employer}, with the fields jobId, jobTitle and
    applicationId; an updateStatus that is answered 200 emits exactly
    one event, applicationStatusUpdated to the room
    user-{application.candidate}, with the fields applicationId,
    jobTitle and newStatus; any other answer comes with no event. *)
Theorem notification_events
    (app : App) (env : Env) (req : Request) (w : World) :
  (succeeds (fst (Routes.create app env req w)) ->
   exists jb a,
     JobModel.findOne_active (fst w) (body_jobId req) = inr (Some jb) /\
     fst (Routes.create app env req w) = mkResponse 200 (ApplicationDoc a) /\
     snd (snd (Routes.create app env req w))
     = (snd w ++
        [mkEvent ("employer-" ++ ObjectId.toString (employer jb))
           "newApplication"
           [("jobId", ObjectId.toString (job_oid jb));
            ("jobTitle", title jb);
            ("applicationId", ObjectId.toString (app_oid a))]])%list) /\
  (~ succeeds (fst (Routes.create app env req w)) ->
   snd (snd (Routes.create app env req w)) = snd w) /\
  (succeeds (fst (Routes.updateStatus app req w)) ->
   exists a jb s,
     ApplicationModel.findById (fst w) (params_id req) = inr (Some a) /\
     JobModel.findById_oid (fst w) (job a) = Some jb /\
     body_status req = Some s /\
     snd (snd (Routes.updateStatus app req w))
     = (snd w ++
        [mkEvent ("user-" ++ ObjectId.toString (candidate a))
           "applicationStatusUpdated"
           [("applicationId", ObjectId.toString (app_oid a));
            ("jobTitle", title jb);
            ("newStatus", s)]])%list) /\
  (~ succeeds (fst (Routes.updateStatus app req w)) ->
   snd (snd (Routes.updateStatus app req w)) = snd w).
Proof.
  unfold succeeds. rewrite create_flat, updateStatus_flat.
  split; [|split; [|split]].
  - destruct (user req) as [u|]; [|discriminate].
    destruct (negb (String.eqb (role u) "candidate")); [discriminate|].
    destruct (JobModel.findOne_active (fst w) (body_jobId req))
      as [e|[jb|]]; try discriminate.
    destruct (ApplicationModel.findOne_pair (fst w) (body_jobId req)
                (user_id u)) as [e|[x|]]; try discriminate.
    destruct (ApplicationModel.build (new_oid env) (now env) (body_jobId req)
                (user_id u) (body_resume req) (body_coverLetter req))
      as [e|a]; try discriminate.
    destruct (ApplicationModel.insert (fst w) a) as [e|db'];
      try discriminate.
    destruct (app_get app "io") as [[]|]; try discriminate.
    intros _. exists jb, a. repeat split.
  - intros Hfail. repeat break_match; cbn [fst snd] in *;
      try reflexivity. exfalso. apply Hfail. reflexivity.
  - destruct (user req) as [u|]; [|discriminate].
    destruct (negb (String.eqb (role u) "employer")); [discriminate|].
    destruct (body_status req) as [s|]; [|discriminate].
    destruct (negb (includes status_enum s)); [discriminate|].
    destruct (ApplicationModel.findById (fst w) (params_id req))
      as [e|[a|]]; try discriminate.
    destruct (JobModel.findById_oid (fst w) (job a)) as [jb|] eqn:Hj;
      [|discriminate].
    destruct (negb (String.eqb (ObjectId.toString (employer jb)) (user_id u)));
      [discriminate|].
    destruct (app_get app "io") as [[]|]; try discriminate.
    intros _. exists a, jb, s. repeat split. exact Hj.
  - intros Hfail. repeat break_match; cbn [fst snd] in *;
      try reflexivity. exfalso. apply Hfail. reflexivity.
Qed.

Lemma notification_events_witness :
  snd (snd (Routes.create Scenario.wired_app Scenario.env1
              (Scenario.apply_request Scenario.candidateC1 Scenario.jobJ
                 (Some "carl.pdf"))
              (Scenario.db0, [])))
  = [mkEvent "employer-e00000000000000000000001" "newApplication"
       [("jobId", "0123456789abcdef01234567");
        ("jobTitle", "Compiler engineer");
        ("applicationId", "a00000000000000000000001")]] /\
  snd (snd (Routes.updateStatus Scenario.wired_app
              (Scenario.status_request Scenario.employerE "employer"
                 Scenario.appId1 (Some "reviewing"))
              (Scenario.db2, [])))
  = [mkEvent "user-c00000000000000000000001" "applicationStatusUpdated"
       [("applicationId", "a00000000000000000000001");
        ("jobTitle", "Compiler engineer");
        ("newStatus", "reviewing")]] /\
  snd (snd (Routes.updateStatus Scenario.wired_app
              (Scenario.status_request Scenario.candidateC2 "employer"
                 Scenario.appId1 (Some "reviewing"))
              (Scenario.db2, [])))
  = [].
Proof.
  split; [|split].
  - destruct (notification_events Scenario.wired_app Scenario.env1
                (Scenario.apply_request Scenario.candidateC1 Scenario.jobJ
                   (Some "carl.pdf"))
                (Scenario.db0, [])) as [H _].
    assert (Hs : succeeds
                   (fst (Routes.create Scenario.wired_app Scenario.env1
                           (Scenario.apply_request Scenario.candidateC1
                              Scenario.jobJ (Some "carl.pdf"))
                           (Scenario.db0, []))))
      by (vm_compute; reflexivity).
    destruct (H Hs) as [jb [a [Hj [Hr He]]]].
    rewrite He. vm_compute in Hj, Hr.
    injection Hj as <-. injection Hr as <-. vm_compute. reflexivity.
  - destruct (notification_events Scenario.wired_app Scenario.env1
                (Scenario.status_request Scenario.employerE "employer"
                   Scenario.appId1 (Some "reviewing"))
                (Scenario.db2, [])) as [_ [_ [H _]]].
    assert (Hs : succeeds
                   (fst (Routes.updateStatus Scenario.wired_app
                           (Scenario.status_request Scenario.employerE
                              "employer" Scenario.appId1 (Some "reviewing"))
                           (Scenario.db2, []))))
      by (vm_compute; reflexivity).
    destruct (H Hs) as [a [jb [s [Ha [Hj [Hb He]]]]]].
    rewrite He. vm_compute in Ha, Hb.
    injection Ha as <-. injection Hb as <-.
    vm_compute in Hj. injection Hj as <-. vm_compute. reflexivity.
  - destruct (notification_events Scenario.wired_app Scenario.env1
                (Scenario.status_request Scenario.candidateC2 "employer"
                   Scenario.appId1 (Some "reviewing"))
                (Scenario.db2, [])) as [_ [_ [_ H]]].
    apply H. vm_compute. discriminate.
Defined.

(** ** create twice for the same pair *)

Lemma filter_nil_find_none {A} (f : A -> bool) (l : list A) :
  filter f l = [] -> find f l = None.
Proof.
  induction l as [|x l IH]; cbn [filter find].
  - reflexivity.
  - destruct (f x); [discriminate | exact IH].
Qed.

Lemma filter_nil_existsb {A} (f : A -> bool) (l : list A) :
  filter f l = [] -> existsb f l = false.
Proof.
  induction l as [|x l IH]; cbn [filter existsb].
  - reflexivity.
  - destruct (f x); [discriminate | exact IH].
Qed.

Lemma not_In_oid_existsb (o : ObjectId.t) (l : list Application) :
  ~ In o (map app_oid l) ->
  existsb (fun b => ObjectId.eqb (app_oid b) o) l = false.
Proof.
  induction l as [|x l IH]; cbn [map existsb In]; intros H.
  - reflexivity.
  - rewrite IH by tauto.
    assert (E : ObjectId.eqb (app_oid x) o = false)
      by (apply oid_eqb_neq; tauto).
    rewrite E. reflexivity.
Qed.

Lemma find_app_last {A} (f : A -> bool) (l : list A) (x : A) :
  find f l = None -> f x = true -> find f (l ++ [x])%list = Some x.
Proof.
  induction l as [|y l IH]; cbn [app find]; intros Hn Hx.
  - rewrite Hx. reflexivity.
  - destruct (f y); [discriminate | auto].
Qed.

(** Two create calls in a row for a pair that has no application yet,
    on any application object.  The first call stores the record; it
    answers 200 with the record when a socket server is registered
    under 'io' and 500 when none is.  The second call is answered
    with the duplicate message and writes nothing; one record of the
    pair is stored. *)
Lemma create_twice (app : App) (env1 env2 : Env) (req : Request) (w : World)
    (u : User) (jb : Job) (c : ObjectId.t) (r : string) :
  user req = Some u ->
  role u = "candidate" ->
  JobModel.findOne_active (fst w) (body_jobId req) = inr (Some jb) ->
  ObjectId.cast (user_id u) = Some c ->
  applications_of (fst w) (job_oid jb) c = [] ->
  body_resume req = Some r ->
  r <> "" ->
  ~ In (new_oid env1) (map app_oid (applications (fst w))) ->
  let a := mkApplication (new_oid env1) (job_oid jb) c r
             (body_coverLetter req) "pending" (now env1) in
  let first := Routes.create app env1 req w in
  let second := Routes.create app env2 req (snd first) in
  fst first = match app_get app "io" with
              | Some _ => mkResponse 200 (ApplicationDoc a)
              | None => Routes.server_error
              end /\
  applications (fst (snd first)) = (applications (fst w) ++ [a])%list /\
  error_kind (fst second) = Some Conflict /\
  snd second = snd first /\
  applications_of (fst (snd second)) (job_oid jb) c = [a].
Proof.
  intros Hu Hr Hj Hc Hnone Hres Hne Hfresh a.
  pose proof (findOne_active_inr _ _ _ Hj) as [_ [Hcj _]].
  assert (Hpair : ApplicationModel.findOne_pair (fst w) (body_jobId req)
                    (user_id u) = inr None).
  { unfold ApplicationModel.findOne_pair, cast_id. rewrite Hcj, Hc.
    rewrite (filter_nil_find_none _ _ Hnone). reflexivity. }
  assert (Hbuild : ApplicationModel.build (new_oid env1) (now env1)
                     (body_jobId req) (user_id u) (body_resume req)
                     (body_coverLetter req) = inr a).
  { unfold ApplicationModel.build, cast_id. rewrite Hcj, Hc, Hres.
    apply String.eqb_neq in Hne. rewrite Hne. reflexivity. }
  assert (Hins : ApplicationModel.insert (fst w) a
                 = inr (mkDb (users (fst w)) (jobs (fst w))
                          (applications (fst w) ++ [a])%list)).
  { unfold ApplicationModel.insert. cbn [app_oid job candidate a].
    rewrite (not_In_oid_existsb _ _ Hfresh).
    unfold applications_of in Hnone.
    rewrite (filter_nil_existsb _ _ Hnone). reflexivity. }
  assert (Hsame : ApplicationModel.same_pair (job_oid jb) c a = true).
  { apply same_pair_true. reflexivity. }
  assert (Hfirst : Routes.create app env1 req w
                   = match app_get app "io" with
                     | Some _ =>
                         (mkResponse 200 (ApplicationDoc a),
                          (mkDb (users (fst w)) (jobs (fst w))
                             (applications (fst w) ++ [a])%list,
                           (snd w ++ [newApplication_event jb a])%list))
                     | None =>
                         (Routes.server_error,
                          (mkDb (users (fst w)) (jobs (fst w))
                             (applications (fst w) ++ [a])%list, snd w))
                     end).
  { rewrite create_flat, Hu, Hr, String.eqb_refl. cbn [negb].
    rewrite Hj, Hpair, Hbuild, Hins. reflexivity. }
  assert (Hsecond : forall w',
             jobs (fst w') = jobs (fst w) ->
             applications (fst w') = (applications (fst w) ++ [a])%list ->
             Routes.create app env2 req w'
             = (error_response 400 "You have already applied for this job",
                w')).
  { intros w' Hjobs Happs.
    rewrite create_flat, Hu, Hr, String.eqb_refl. cbn [negb].
    assert (Hj' : JobModel.findOne_active (fst w') (body_jobId req)
                  = inr (Some jb)).
    { unfold JobModel.findOne_active in *. rewrite Hjobs. exact Hj. }
    assert (Hp' : ApplicationModel.findOne_pair (fst w') (body_jobId req)
                    (user_id u) = inr (Some a)).
    { unfold ApplicationModel.findOne_pair, cast_id. rewrite Hcj, Hc, Happs.
      rewrite (find_app_last _ _ a (filter_nil_find_none _ _ Hnone) Hsame).
      reflexivity. }
    rewrite Hj', Hp'. reflexivity. }
  assert (Hof : forall db',
             applications db' = (applications (fst w) ++ [a])%list ->
             applications_of db' (job_oid jb) c = [a]).
  { intros db' Happs. unfold applications_of in *.
    rewrite Happs, filter_app, Hnone. cbn [filter List.app]. rewrite Hsame.
    reflexivity. }
  cbv zeta. rewrite Hfirst.
  destruct (app_get app "io") as [s|]; cbn [fst snd];
    rewrite Hsecond by reflexivity;
    (split; [reflexivity|]); (split; [reflexivity|]);
    (split; [reflexivity|]); (split; [reflexivity|]);
    apply Hof; reflexivity.
Qed.

(** C2 on the application [server.js] builds.  No socket server is
    registered under 'io', so the first create stores the record and
    then fails in the notification: it is answered 500, not 200.
    The second create is answered with Conflict and one record of the
    pair is stored. *)
Theorem create_twice_on_server_app :
  app_get server_app "io" = None /\
  fst (Routes.create server_app Scenario.env1
         (Scenario.apply_request Scenario.candidateC1 Scenario.jobJ
            (Some "carl.pdf"))
         (Scenario.db0, []))
  = error_response 500 "Server error" /\
  snd (Routes.create server_app Scenario.env1
         (Scenario.apply_request Scenario.candidateC1 Scenario.jobJ
            (Some "carl.pdf"))
         (Scenario.db0, []))
  = (mkDb Scenario.people [Scenario.J; Scenario.K] [Scenario.application1],
     []) /\
  error_kind
    (fst (Routes.create server_app Scenario.env3
            (Scenario.apply_request Scenario.candidateC1 Scenario.jobJ
               (Some "carl.pdf"))
            (mkDb Scenario.people [Scenario.J; Scenario.K]
               [Scenario.application1], [])))
  = Some Conflict /\
  snd (Routes.create server_app Scenario.env3
         (Scenario.apply_request Scenario.candidateC1 Scenario.jobJ
            (Some "carl.pdf"))
         (mkDb Scenario.people [Scenario.J; Scenario.K]
            [Scenario.application1], []))
  = (mkDb Scenario.people [Scenario.J; Scenario.K] [Scenario.application1],
     []).
Proof. repeat split; vm_compute; reflexivity. Qed.

(** The same two calls once the socket server is registered: the
    first is answered 200 with the record. *)
Lemma create_twice_on_wired_app :
  fst (Routes.create Scenario.wired_app Scenario.env1
         (Scenario.apply_request Scenario.candidateC1 Scenario.jobJ
            (Some "carl.pdf"))
         (Scenario.db0, []))
  = mkResponse 200 (ApplicationDoc Scenario.application1) /\
  error_kind
    (fst (Routes.create Scenario.wired_app Scenario.env3
            (Scenario.apply_request Scenario.candidateC1 Scenario.jobJ
               (Some "carl.pdf"))
            (snd (Routes.create Scenario.wired_app Scenario.env1
                    (Scenario.apply_request Scenario.candidateC1
                       Scenario.jobJ (Some "carl.pdf"))
                    (Scenario.db0, [])))))
  = Some Conflict.
Proof.
  pose proof (create_twice Scenario.wired_app Scenario.env1 Scenario.env3
                (Scenario.apply_request Scenario.candidateC1 Scenario.jobJ
                   (Some "carl.pdf"))
                (Scenario.db0, [])
                (mkUser Scenario.candidateC1 "candidate") Scenario.J
                Scenario.candidateC1 "carl.pdf"
                eq_refl eq_refl eq_refl eq_refl eq_refl eq_refl) as H.
  destruct H as [H1 [_ [H3 _]]].
  - discriminate.
  - intros [].
  - split; [exact H1 | exact H3].
Defined.

(** ** updateStatus by the employer of the job *)

(** An updateStatus call by the employer who owns the job of an
    existing application, on any application object.  It is answered
    BadRequest exactly when the status is outside the enum.  With a
    status of the enum, whatever the current status is, the new
    status is stored; the answer is 200 with the updated record when
    a socket server is registered under 'io' and 500 when none is. *)
Lemma updateStatus_by_owner (app : App) (req : Request) (w : World)
    (u : User) (a : Application) (jb : Job) :
  user req = Some u ->
  role u = "employer" ->
  ApplicationModel.findById (fst w) (params_id req) = inr (Some a) ->
  JobModel.findById_oid (fst w) (job a) = Some jb ->
  user_id u = ObjectId.toString (employer jb) ->
  (error_kind (fst (Routes.updateStatus app req w)) = Some BadRequest
   <-> Routes.valid_status (body_status req) = false) /\
  (forall s,
     body_status req = Some s ->
     includes status_enum s = true ->
     ApplicationModel.findById (fst (snd (Routes.updateStatus app req w)))
       (params_id req)
     = inr (Some (ApplicationModel.set_status s a)) /\
     fst (Routes.updateStatus app req w)
     = match app_get app "io" with
       | Some _ =>
           mkResponse 200 (ApplicationDoc (ApplicationModel.set_status s a))
       | None => Routes.server_error
       end).
Proof.
  intros Hu Hr Ha Hj Hid. split.
  - destruct (Routes.valid_status (body_status req)) eqn:Hs.
    + unfold Routes.valid_status in Hs.
      destruct (body_status req) as [s|] eqn:Hb; [|discriminate].
      rewrite (updateStatus_owner app req w u a jb s Hu Hr Hb Hs Ha Hj Hid).
      split; [|discriminate].
      destruct (app_get app "io"); discriminate.
    + rewrite (updateStatus_invalid_status app req w u Hu Hr Hs).
      split; reflexivity.
  - intros s Hb Hs.
    rewrite (updateStatus_owner app req w u a jb s Hu Hr Hb Hs Ha Hj Hid).
    destruct (app_get app "io"); cbn [fst snd];
      (split; [apply update_status_stored; exact Ha | reflexivity]).
Qed.

(** C4 on the application [server.js] builds.  The employer of the
    job moves an application forward, keeps its status, or moves it
    back; each time the new status is stored, and each time the call
    is answered 500 instead of the updated record, because no socket
    server is registered under 'io'.  A status outside the enum is
    answered BadRequest. *)
Theorem updateStatus_on_server_app :
  app_get server_app "io" = None /\
  Routes.updateStatus server_app
    (Scenario.status_request Scenario.employerE "employer"
       Scenario.appId1 (Some "reviewing"))
    (Scenario.db2, [])
  = (error_response 500 "Server error",
     (mkDb Scenario.people [Scenario.J; Scenario.K]
        [ApplicationModel.set_status "reviewing" Scenario.application1;
         Scenario.application2],
      [])) /\
  Routes.updateStatus server_app
    (Scenario.status_request Scenario.employerE "employer"
       Scenario.appId1 (Some "pending"))
    (Scenario.db2, [])
  = (error_response 500 "Server error", (Scenario.db2, [])) /\
  Routes.updateStatus server_app
    (Scenario.status_request Scenario.employerE "employer"
       Scenario.appId2 (Some "pending"))
    (Scenario.db2, [])
  = (error_response 500 "Server error",
     (mkDb Scenario.people [Scenario.J; Scenario.K]
        [Scenario.application1;
         ApplicationModel.set_status "pending" Scenario.application2],
      [])) /\
  error_kind
    (fst (Routes.updateStatus server_app
            (Scenario.status_request Scenario.employerE "employer"
               Scenario.appId1 (Some "archived"))
            (Scenario.db2, [])))
  = Some BadRequest.
Proof. repeat split; vm_compute; reflexivity. Qed.

(** The same calls once the socket server is registered: each is
    answered 200 with the updated record. *)
Lemma updateStatus_on_wired_app :
  fst (Routes.updateStatus Scenario.wired_app
         (Scenario.status_request Scenario.employerE "employer"
            Scenario.appId1 (Some "reviewing"))
         (Scenario.db2, []))
  = mkResponse 200
      (ApplicationDoc
         (ApplicationModel.set_status "reviewing" Scenario.application1)) /\
  fst (Routes.updateStatus Scenario.wired_app
         (Scenario.status_request Scenario.employerE "employer"
            Scenario.appId2 (Some "pending"))
         (Scenario.db2, []))
  = mkResponse 200
      (ApplicationDoc
         (ApplicationModel.set_status "pending" Scenario.application2)).
Proof.
  split.
  - destruct (updateStatus_by_owner Scenario.wired_app
                (Scenario.status_request Scenario.employerE "employer"
                   Scenario.appId1 (Some "reviewing"))
                (Scenario.db2, [])
                (mkUser Scenario.employerE "employer")
                Scenario.application1 Scenario.J
                eq_refl eq_refl eq_refl eq_refl eq_refl) as [_ H].
    apply (H "reviewing" eq_refl eq_refl).
  - destruct (updateStatus_by_owner Scenario.wired_app
                (Scenario.status_request Scenario.employerE "employer"
                   Scenario.appId2 (Some "pending"))
                (Scenario.db2, [])
                (mkUser Scenario.employerE "employer")
                Scenario.application2 Scenario.J
                eq_refl eq_refl eq_refl eq_refl eq_refl) as [_ H].
    apply (H "pending" eq_refl eq_refl).
Defined.

(** * Further properties of the application routes *)

(** ** The role gates *)

(** X1. The candidate gate and the employer gate never both open for
    one requester: whoever is let through to create is refused by
    updateStatus with 403, and the other way round. *)
Theorem candidate_and_employer_gates_exclusive
    (app : App) (env : Env) (req1 req2 : Request) (w1 w2 : World) :
  user req1 = user req2 ->
  fst (Routes.create app env req1 w1) = unauthenticated \/
  fst (Routes.create app env req1 w1)
  = error_response 403 "Access denied. Candidates only." \/
  fst (Routes.updateStatus app req2 w2)
  = error_response 403 "Access denied. Employers only.".
Proof.
  intros Hsame. rewrite create_flat, updateStatus_flat, <- Hsame.
  destruct (user req1) as [u|]; [|left; reflexivity].
  destruct (String.eqb (role u) "candidate") eqn:Hc; cbn [negb].
  - apply String.eqb_eq in Hc. rewrite Hc. right. right. reflexivity.
  - right. left. reflexivity.
Qed.

Lemma candidate_and_employer_gates_exclusive_witness :
  fst (Routes.updateStatus Scenario.wired_app
         (Scenario.status_request Scenario.candidateC1 "candidate"
            Scenario.appId1 (Some "accepted"))
         (Scenario.db2, []))
  = error_response 403 "Access denied. Employers only.".
Proof.
  destruct (candidate_and_employer_gates_exclusive Scenario.wired_app
              Scenario.env1
              (Scenario.apply_request Scenario.candidateC1 Scenario.jobJ
                 (Some "carl.pdf"))
              (Scenario.status_request Scenario.candidateC1 "candidate"
                 Scenario.appId1 (Some "accepted"))
              (Scenario.db0, []) (Scenario.db2, []) eq_refl)
    as [H | [H | H]].
  - vm_compute in H. discriminate.
  - vm_compute in H. discriminate.
  - exact H.
Defined.

(** ** listByCandidate *)

Lemma populate_job_joined (db : Db) (a : Application) :
  joined_with_job db (populate_job db a).
Proof.
  unfold joined_with_job, populate_job, JobModel.findById_oid. simpl.
  destruct (find (fun jb => ObjectId.eqb (job_oid jb) (job a)) (jobs db))
    as [jb|] eqn:E; simpl.
  - apply find_some in E. destruct E as [Hin Heq].
    apply oid_eqb_eq in Heq. exists jb. repeat split; assumption.
  - intros jb Hin. apply oid_eqb_neq. exact (find_none _ _ E jb Hin).
Qed.

(** X2. listByCandidate refuses a requester whose role is not
    candidate with 403, answers 500 when the requester's id is not a
    well-formed object id, and otherwise returns exactly the
    applications whose candidate is the requester, newest first, each
    joined with the title, company and location of its job, or with
    null when the job is no longer stored.  It never writes. *)
Theorem listByCandidate_spec (req : Request) (w : World) (u : User) :
  user req = Some u ->
  snd (Routes.listByCandidate req w) = w /\
  (role u <> "candidate" ->
   fst (Routes.listByCandidate req w)
   = error_response 403 "Access denied. Candidates only.") /\
  (role u = "candidate" ->
   ObjectId.cast (user_id u) = None ->
   error_kind (fst (Routes.listByCandidate req w)) = Some Internal) /\
  (forall c,
     role u = "candidate" ->
     ObjectId.cast (user_id u) = Some c ->
     exists l,
       fst (Routes.listByCandidate req w)
       = mkResponse 200 (ApplicationsOfCandidate l) /\
       Permutation (map doc l)
         (filter (fun a => ObjectId.eqb (candidate a) c)
            (applications (fst w))) /\
       (forall a, In a (map doc l) <->
                  In a (applications (fst w)) /\ candidate a = c) /\
       StronglySorted newer_or_equal (map doc l) /\
       Forall (joined_with_job (fst w)) l).
Proof.
  intros Hu. split; [apply listByCandidate_pure|]. split; [|split].
  - intros Hr. apply String.eqb_neq in Hr.
    unfold_route. rewrite Hu, Hr. reflexivity.
  - intros Hr Hc.
    assert (Hf : find_by_candidate (fst w) (user_id u)
                 = inl (CastError "ObjectId")).
    { unfold find_by_candidate, cast_id. rewrite Hc. reflexivity. }
    unfold_route. run. reflexivity.
  - intros c Hr Hc.
    assert (Hf : find_by_candidate (fst w) (user_id u)
                 = inr (map (populate_job (fst w))
                          (sort_desc
                             (filter (fun a => ObjectId.eqb (candidate a) c)
                                (applications (fst w)))))).
    { unfold find_by_candidate, cast_id. rewrite Hc. reflexivity. }
    eexists. split; [|split; [|split; [|split]]].
    + unfold_route. run. reflexivity.
    + rewrite map_map. cbn [doc populate_job]. rewrite map_id.
      apply Permutation_sym. apply sort_desc_perm.
    + intros a. rewrite map_map. cbn [doc populate_job].
      rewrite map_id, sort_desc_In, filter_In, oid_eqb_eq. tauto.
    + rewrite map_map. cbn [doc populate_job]. rewrite map_id.
      apply sort_desc_sorted.
    + apply Forall_forall. intros p Hp. apply in_map_iff in Hp.
      destruct Hp as [a [<- _]]. apply populate_job_joined.
Qed.

Lemma listByCandidate_spec_witness :
  exists l,
    fst (Routes.listByCandidate
           (Scenario.apply_request Scenario.candidateC2 "" None)
           (Scenario.db2, []))
    = mkResponse 200 (ApplicationsOfCandidate l) /\
    map doc l = [Scenario.application2].
Proof.
  destruct (listByCandidate_spec
              (Scenario.apply_request Scenario.candidateC2 "" None)
              (Scenario.db2, [])
              (mkUser Scenario.candidateC2 "candidate") eq_refl)
    as [_ [_ [_ H]]].
  destruct (H Scenario.candidateC2 eq_refl eq_refl) as [l [Hresp _]].
  exists l. split; [exact Hresp|].
  vm_compute in Hresp. injection Hresp as <-. reflexivity.
Defined.

(** ** The application server.js builds *)

(** X3. On the application [server.js] builds, neither create nor
    updateStatus is ever answered 200 and neither ever emits an
    event, whatever the request and the store. *)
Theorem server_app_never_acknowledges_a_write
    (env : Env) (req : Request) (w : World) :
  ~ succeeds (fst (Routes.create server_app env req w)) /\
  snd (snd (Routes.create server_app env req w)) = snd w /\
  ~ succeeds (fst (Routes.updateStatus server_app req w)) /\
  snd (snd (Routes.updateStatus server_app req w)) = snd w.
Proof.
  assert (Hio : app_get server_app "io" = None) by reflexivity.
  unfold succeeds. rewrite create_flat, updateStatus_flat, Hio.
  repeat split.
  - repeat break_match; cbn [fst code]; discriminate.
  - repeat break_match; reflexivity.
  - repeat break_match; cbn [fst code]; discriminate.
  - repeat break_match; reflexivity.
Qed.

(** ** What the two writing routes leave alone *)

(** X4. create only ever appends: for every request and every
    application object, users and jobs stay as they are, the stored
    applications are kept in place, and at most one record is added,
    which carries the id and time of the request and the status
    pending. *)
Theorem create_appends_at_most_one
    (app : App) (env : Env) (req : Request) (w : World) :
  users (fst (snd (Routes.create app env req w))) = users (fst w) /\
  jobs (fst (snd (Routes.create app env req w))) = jobs (fst w) /\
  (applications (fst (snd (Routes.create app env req w)))
   = applications (fst w) \/
   exists a,
     applications (fst (snd (Routes.create app env req w)))
     = (applications (fst w) ++ [a])%list /\
     app_oid a = new_oid env /\
     createdAt a = now env /\
     status a = "pending" /\
     resume a <> "").
Proof.
  rewrite create_flat.
  destruct (user req) as [u|]; [|auto].
  destruct (negb (String.eqb (role u) "candidate")); [auto|].
  destruct (JobModel.findOne_active (fst w) (body_jobId req))
    as [e|[jb|]]; auto.
  destruct (ApplicationModel.findOne_pair (fst w) (body_jobId req) (user_id u))
    as [e|[x|]]; auto.
  destruct (ApplicationModel.build (new_oid env) (now env) (body_jobId req)
              (user_id u) (body_resume req) (body_coverLetter req))
    as [e|a] eqn:Hb; auto.
  destruct (ApplicationModel.insert (fst w) a) as [e|db'] eqn:Hi; auto.
  apply build_inr in Hb.
  destruct Hb as [Hid [_ [_ [_ [Hne [_ [Hst Ht]]]]]]].
  apply insert_inr in Hi. destruct Hi as [Hus [Hjs [Happs _]]].
  destruct (app_get app "io"); cbn [fst snd];
    (split; [exact Hus|]); (split; [exact Hjs|]);
    right; exists a; auto.
Qed.

Lemma set_status_same_but_status (s : string) (a : Application) :
  same_but_status a (ApplicationModel.set_status s a).
Proof. unfold same_but_status. cbn. auto 10. Qed.

Lemma update_status_Forall2 (db : Db) (a : Application) (s : string) :
  Forall2 (fun old new =>
             same_but_status old new /\
             (status new = status old \/
              (app_oid old = app_oid a /\ status new = s)))
    (applications db)
    (applications (ApplicationModel.update_status db a s)).
Proof.
  unfold ApplicationModel.update_status. cbn [applications].
  induction (applications db) as [|b l IH]; cbn [map]; constructor.
  - destruct (ObjectId.eqb (app_oid b) (app_oid a)) eqn:E.
    + apply oid_eqb_eq in E. split.
      * apply set_status_same_but_status.
      * right. split; [exact E | reflexivity].
    + split; [|left; reflexivity]. unfold same_but_status. auto 10.
  - exact IH.
Qed.

Lemma Forall2_same (l : list Application) :
  Forall2 (fun old new =>
             same_but_status old new /\ status new = status old) l l.
Proof.
  induction l; constructor; auto. unfold same_but_status. auto 10.
Qed.

(** X5. updateStatus touches nothing but a status: for every request
    and every application object, users and jobs stay as they are,
    and the stored applications stay in place with their id, job,
    candidate, resume, cover letter and date; a status changes only
    on the application the request names, and only to the status of
    the request, which is then one of the four values. *)
Theorem updateStatus_changes_only_one_status
    (app : App) (req : Request) (w : World) :
  users (fst (snd (Routes.updateStatus app req w))) = users (fst w) /\
  jobs (fst (snd (Routes.updateStatus app req w))) = jobs (fst w) /\
  Forall2 (fun old new =>
             same_but_status old new /\
             (status new = status old \/
              (ObjectId.cast (params_id req) = Some (app_oid old) /\
               body_status req = Some (status new) /\
               In (status new) status_enum)))
    (applications (fst w))
    (applications (fst (snd (Routes.updateStatus app req w)))).
Proof.
  assert (Hsame : Forall2
                    (fun old new =>
                       same_but_status old new /\
                       (status new = status old \/
                        (ObjectId.cast (params_id req) = Some (app_oid old) /\
                         body_status req = Some (status new) /\
                         In (status new) status_enum)))
                    (applications (fst w)) (applications (fst w))).
  { eapply Forall2_impl; [|apply Forall2_same].
    cbv beta. intros a b [H1 H2]. auto. }
  rewrite updateStatus_flat.
  destruct (user req) as [u|]; [|auto].
  destruct (negb (String.eqb (role u) "employer")); [auto|].
  destruct (body_status req) as [s|] eqn:Hb; [|auto].
  destruct (includes status_enum s) eqn:Hs; cbn [negb]; [|auto].
  destruct (ApplicationModel.findById (fst w) (params_id req))
    as [e|[a|]] eqn:Ha; auto.
  destruct (JobModel.findById_oid (fst w) (job a)) as [jb|]; [|auto].
  destruct (negb (String.eqb (ObjectId.toString (employer jb)) (user_id u)));
    [auto|].
  assert (Hcast : ObjectId.cast (params_id req) = Some (app_oid a)).
  { unfold ApplicationModel.findById, cast_id in Ha.
    destruct (ObjectId.cast (params_id req)) as [o|]; [|discriminate].
    injection Ha as Ha. apply find_some in Ha. destruct Ha as [_ Ho].
    apply oid_eqb_eq in Ho. rewrite Ho. reflexivity. }
  assert (Hupd : Forall2
                   (fun old new =>
                      same_but_status old new /\
                      (status new = status old \/
                       (ObjectId.cast (params_id req) = Some (app_oid old) /\
                        Some s = Some (status new) /\
                        In (status new) status_enum)))
                   (applications (fst w))
                   (applications
                      (ApplicationModel.update_status (fst w) a s))).
  { eapply Forall2_impl; [|apply update_status_Forall2].
    cbv beta. intros old new [H1 [H2 | [H2 H3]]]; split; auto.
    right. rewrite H2, H3. repeat split; auto.
    apply includes_In. exact Hs. }
  destruct (app_get app "io"); cbn [fst snd]; auto.
Qed.

(** ** Invariants of the ledger *)

Lemma update_status_ids (db : Db) (a : Application) (s : string) :
  map app_oid (applications (ApplicationModel.update_status db a s))
  = map app_oid (applications db).
Proof.
  unfold ApplicationModel.update_status. cbn [applications].
  rewrite map_map. apply map_ext. intros b.
  destruct (ObjectId.eqb (app_oid b) (app_oid a)); reflexivity.
Qed.

Lemma update_status_statuses_valid (db : Db) (a : Application) (s : string) :
  In s status_enum ->
  statuses_valid db ->
  statuses_valid (ApplicationModel.update_status db a s).
Proof.
  unfold statuses_valid, ApplicationModel.update_status. cbn [applications].
  intros Hs Hv. apply Forall_forall. intros b Hb.
  apply in_map_iff in Hb. destruct Hb as [c [<- Hc]].
  destruct (ObjectId.eqb (app_oid c) (app_oid a)).
  - exact Hs.
  - rewrite Forall_forall in Hv. apply Hv. exact Hc.
Qed.

Lemma run_op_statuses_valid (app : App) (op : Op) (w : World) :
  statuses_valid (fst w) -> statuses_valid (fst (snd (run_op app op w))).
Proof.
  intros Hv. destruct op as [env req|req|req|req]; cbn [run_op].
  - rewrite create_flat.
    repeat break_match; cbn [fst snd]; try exact Hv.
    all: match goal with
         | Hi : ApplicationModel.insert _ _ = inr _,
           Hb : ApplicationModel.build _ _ _ _ _ _ = inr _ |- _ =>
             apply insert_inr in Hi;
             destruct Hi as [_ [_ [Happs _]]];
             apply build_inr in Hb;
             destruct Hb as [_ [_ [_ [_ [_ [_ [Hst _]]]]]]]
         end.
    all: unfold statuses_valid in *; rewrite Happs;
      apply Forall_app; split; [exact Hv|];
      constructor; [|constructor]; rewrite Hst; cbn; auto.
  - rewrite listByCandidate_pure. exact Hv.
  - rewrite listByJob_pure. exact Hv.
  - rewrite updateStatus_flat.
    repeat break_match; cbn [fst snd]; try exact Hv.
    all: apply update_status_statuses_valid; [|exact Hv].
    all: apply includes_In;
      match goal with
      | H : negb (includes status_enum ?s) = false |- _ =>
          apply negb_false_iff in H; exact H
      end.
Qed.

Lemma run_op_app_ids_distinct (app : App) (op : Op) (w : World) :
  app_ids_distinct (fst w) -> app_ids_distinct (fst (snd (run_op app op w))).
Proof.
  unfold app_ids_distinct. intros Hd.
  destruct op as [env req|req|req|req]; cbn [run_op].
  - rewrite create_flat.
    repeat break_match; cbn [fst snd]; try exact Hd.
    all: match goal with
         | Hi : ApplicationModel.insert _ _ = inr _ |- _ =>
             apply insert_inr in Hi;
             destruct Hi as [_ [_ [Happs [_ Hfresh]]]]
         end.
    all: rewrite Happs, map_app; cbn [map];
      apply (Permutation_NoDup (Permutation_cons_append _ _));
      constructor; assumption.
  - rewrite listByCandidate_pure. exact Hd.
  - rewrite listByJob_pure. exact Hd.
  - rewrite updateStatus_flat.
    repeat break_match; cbn [fst snd]; try exact Hd.
    all: rewrite update_status_ids; exact Hd.
Qed.

(** X6. Whatever sequence of the four routes runs, on any
    application object, every stored status stays one of the four
    enumerated values and no two stored applications share an id. *)
Theorem statuses_and_ids_invariant (app : App) (ops : list Op) (w : World) :
  statuses_valid (fst w) ->
  app_ids_distinct (fst w) ->
  statuses_valid (fst (run_ops app ops w)) /\
  app_ids_distinct (fst (run_ops app ops w)).
Proof.
  revert w. induction ops as [|op ops IH]; intros w Hv Hd; cbn [run_ops].
  - split; assumption.
  - apply IH.
    + apply run_op_statuses_valid. exact Hv.
    + apply run_op_app_ids_distinct. exact Hd.
Qed.

Lemma statuses_and_ids_invariant_witness :
  statuses_valid
    (fst (run_ops Scenario.wired_app
            [UpdateStatus
               (Scenario.status_request Scenario.employerE "employer"
                  Scenario.appId1 (Some "accepted"));
             UpdateStatus
               (Scenario.status_request Scenario.employerE "employer"
                  Scenario.appId2 (Some "archived"))]
            (Scenario.db2, []))).
Proof.
  assert (Hv : statuses_valid (fst (Scenario.db2, @nil Event))).
  { unfold statuses_valid. cbn [fst applications Scenario.db2].
    constructor; [cbn; auto | constructor; [cbn; auto | constructor]]. }
  assert (Hd : app_ids_distinct (fst (Scenario.db2, @nil Event))).
  { unfold app_ids_distinct. cbn. constructor.
    - intros [E | []]. vm_compute in E. discriminate.
    - constructor; [intros [] | constructor]. }
  apply (statuses_and_ids_invariant Scenario.wired_app _ _ Hv Hd).
Defined.

Lemma run_op_keeps (app : App) (op : Op) (w : World) :
  users (fst (snd (run_op app op w))) = users (fst w) /\
  jobs (fst (snd (run_op app op w))) = jobs (fst w) /\
  exists added,
    map app_oid (applications (fst (snd (run_op app op w))))
    = (map app_oid (applications (fst w)) ++ added)%list.
Proof.
  assert (Hnil : forall l : list ObjectId.t, exists added, l = (l ++ added)%list).
  { intros l. exists []. rewrite app_nil_r. reflexivity. }
  destruct op as [env req|req|req|req]; cbn [run_op].
  - rewrite create_flat.
    repeat break_match; cbn [fst snd]; auto.
    all: match goal with
         | Hi : ApplicationModel.insert _ _ = inr _ |- _ =>
             apply insert_inr in Hi;
             destruct Hi as [Hus [Hjs [Happs _]]]
         end.
    all: split; [exact Hus|]; split; [exact Hjs|].
    all: rewrite Happs, map_app; eexists; reflexivity.
  - rewrite listByCandidate_pure. auto.
  - rewrite listByJob_pure. auto.
  - rewrite updateStatus_flat.
    repeat break_match; cbn [fst snd]; auto.
    all: split; [reflexivity|]; split; [reflexivity|].
    all: rewrite update_status_ids; apply Hnil.
Qed.

(** X7. No sequence of the four routes removes or reorders a stored
    application, and none changes the users or the jobs: the ids of
    the applications stored before are a prefix of the ids stored
    after. *)
Theorem applications_are_never_removed
    (app : App) (ops : list Op) (w : World) :
  users (fst (run_ops app ops w)) = users (fst w) /\
  jobs (fst (run_ops app ops w)) = jobs (fst w) /\
  exists added,
    map app_oid (applications (fst (run_ops app ops w)))
    = (map app_oid (applications (fst w)) ++ added)%list.
Proof.
  revert w. induction ops as [|op ops IH]; intros w; cbn [run_ops].
  - repeat split. exists []. rewrite app_nil_r. reflexivity.
  - destruct (IH (snd (run_op app op w))) as [Hu [Hj [l2 Ha]]].
    destruct (run_op_keeps app op w) as [Hu1 [Hj1 [l1 Ha1]]].
    rewrite Hu, Hj, Ha, Hu1, Hj1, Ha1.
    repeat split. exists (l1 ++ l2)%list. rewrite app_assoc. reflexivity.
Qed.

(** ** create and the two lists *)

Lemma app_one_neq {A} (l : list A) (a : A) : l <> (l ++ [a])%list.
Proof.
  intros H. apply (f_equal (@length A)) in H.
  rewrite length_app in H. cbn in H. lia.
Qed.

(** What stands behind a record that create has stored. *)
Lemma create_inserted (app : App) (env : Env) (req : Request) (w : World)
    (a : Application) :
  applications (fst (snd (Routes.create app env req w)))
  = (applications (fst w) ++ [a])%list ->
  users (fst (snd (Routes.create app env req w))) = users (fst w) /\
  jobs (fst (snd (Routes.create app env req w))) = jobs (fst w) /\
  exists u jb,
    user req = Some u /\ role u = "candidate" /\
    JobModel.findOne_active (fst w) (body_jobId req) = inr (Some jb) /\
    ApplicationModel.build (new_oid env) (now env) (body_jobId req)
      (user_id u) (body_resume req) (body_coverLetter req) = inr a.
Proof.
  rewrite create_flat.
  destruct (user req) as [u|];
    [|intros H; cbn [fst snd] in H; destruct (app_one_neq _ _ H)].
  destruct (String.eqb (role u) "candidate") eqn:Hr; cbn [negb];
    [|intros H; cbn [fst snd] in H; destruct (app_one_neq _ _ H)].
  apply String.eqb_eq in Hr.
  destruct (JobModel.findOne_active (fst w) (body_jobId req))
    as [e|[jb|]];
    try (intros H; cbn [fst snd] in H; destruct (app_one_neq _ _ H)).
  destruct (ApplicationModel.findOne_pair (fst w) (body_jobId req) (user_id u))
    as [e|[x|]];
    try (intros H; cbn [fst snd] in H; destruct (app_one_neq _ _ H)).
  destruct (ApplicationModel.build (new_oid env) (now env) (body_jobId req)
              (user_id u) (body_resume req) (body_coverLetter req))
    as [e|a'] eqn:Hb;
    try (intros H; cbn [fst snd] in H; destruct (app_one_neq _ _ H)).
  destruct (ApplicationModel.insert (fst w) a') as [e|db'] eqn:Hi;
    try (intros H; cbn [fst snd] in H; destruct (app_one_neq _ _ H)).
  apply insert_inr in Hi. destruct Hi as [Hus [Hjs [Happs _]]].
  destruct (app_get app "io"); cbn [fst snd]; rewrite Happs; intros H;
    apply app_inv_head in H; injection H as ->;
    (split; [exact Hus|]); (split; [exact Hjs|]);
    exists u, jb; auto.
Qed.

(** X8. A record that create has stored is found by both lists at
    once, whether create was answered 200 or 500: listByJob, called
    by the employer of the job, returns it, and so does
    listByCandidate called by the candidate. *)
Theorem stored_application_is_listed
    (app : App) (env : Env) (req reqJ reqC : Request) (w : World)
    (a : Application) (jb : Job) (uj : User) :
  applications (fst (snd (Routes.create app env req w)))
  = (applications (fst w) ++ [a])%list ->
  JobModel.findById_oid (fst w) (job a) = Some jb ->
  user reqJ = Some uj ->
  user_id uj = ObjectId.toString (employer jb) ->
  ObjectId.cast (params_jobId reqJ) = Some (job a) ->
  user reqC = user req ->
  (exists l,
     fst (Routes.listByJob reqJ (snd (Routes.create app env req w)))
     = mkResponse 200 (ApplicationsOfJob l) /\
     In a (map doc l)) /\
  (exists l,
     fst (Routes.listByCandidate reqC (snd (Routes.create app env req w)))
     = mkResponse 200 (ApplicationsOfCandidate l) /\
     In a (map doc l)).
Proof.
  intros Happs Hjb HuJ Hown HcJ HuC.
  destruct (create_inserted app env req w a Happs)
    as [Hus [Hjs [u [jb0 [Hu [Hr [_ Hb]]]]]]].
  apply build_inr in Hb. destruct Hb as [_ [_ [Hcc _]]].
  set (w' := snd (Routes.create app env req w)) in *.
  split.
  - assert (Hj : JobModel.findById (fst w') (params_jobId reqJ)
                 = inr (Some jb)).
    { unfold JobModel.findById, cast_id, JobModel.findById_oid in *.
      rewrite HcJ, Hjs. rewrite Hjb. reflexivity. }
    assert (Hf : find_by_job (fst w') (params_jobId reqJ)
                 = inr (map (populate_candidate (fst w'))
                          (sort_desc
                             (filter (fun x => ObjectId.eqb (job x) (job a))
                                (applications (fst w')))))).
    { unfold find_by_job, cast_id. rewrite HcJ. reflexivity. }
    symmetry in Hown. eexists. split.
    + unfold_route. run. reflexivity.
    + rewrite map_map. cbn [doc populate_candidate]. rewrite map_id.
      apply sort_desc_In. apply filter_In. split.
      * rewrite Happs. apply in_or_app. right. left. reflexivity.
      * apply oid_eqb_refl.
  - rewrite Hu in HuC.
    assert (Hf : find_by_candidate (fst w') (user_id u)
                 = inr (map (populate_job (fst w'))
                          (sort_desc
                             (filter (fun x => ObjectId.eqb (candidate x)
                                                 (candidate a))
                                (applications (fst w')))))).
    { unfold find_by_candidate, cast_id. rewrite Hcc. reflexivity. }
    eexists. split.
    + unfold_route. run. reflexivity.
    + rewrite map_map. cbn [doc populate_job]. rewrite map_id.
      apply sort_desc_In. apply filter_In. split.
      * rewrite Happs. apply in_or_app. right. left. reflexivity.
      * apply oid_eqb_refl.
Qed.

Lemma stored_application_is_listed_witness :
  exists l,
    fst (Routes.listByJob
           (Scenario.list_request Scenario.employerE "employer" Scenario.jobJ)
           (snd (Routes.create server_app Scenario.env1
                   (Scenario.apply_request Scenario.candidateC1
                      Scenario.jobJ (Some "carl.pdf"))
                   (Scenario.db0, []))))
    = mkResponse 200 (ApplicationsOfJob l) /\
    In Scenario.application1 (map doc l).
Proof.
  apply (stored_application_is_listed server_app Scenario.env1
           (Scenario.apply_request Scenario.candidateC1 Scenario.jobJ
              (Some "carl.pdf"))
           (Scenario.list_request Scenario.employerE "employer" Scenario.jobJ)
           (Scenario.apply_request Scenario.candidateC1 "" None)
           (Scenario.db0, []) Scenario.application1 Scenario.J
           (mkUser Scenario.employerE "employer")
           eq_refl eq_refl eq_refl eq_refl eq_refl eq_refl).
Defined.

(** ** Errors of updateStatus and create the lists above do not show *)

(** X9. When the job of an application is no longer stored,
    updateStatus is answered 401 Not authorized for every employer,
    the one who posted the job included, and writes nothing. *)
Theorem updateStatus_job_gone_unauthorized
    (app : App) (req : Request) (w : World) (u : User) (a : Application) :
  user req = Some u ->
  role u = "employer" ->
  Routes.valid_status (body_status req) = true ->
  ApplicationModel.findById (fst w) (params_id req) = inr (Some a) ->
  JobModel.findById_oid (fst w) (job a) = None ->
  Routes.updateStatus app req w = (error_response 401 "Not authorized", w).
Proof.
  intros Hu Hr Hs Ha Hj. rewrite updateStatus_flat, Hu, Hr, String.eqb_refl.
  cbn [negb]. unfold Routes.valid_status in Hs.
  destruct (body_status req) as [s|]; [|discriminate].
  rewrite Hs, Ha, Hj. reflexivity.
Qed.

Lemma updateStatus_job_gone_unauthorized_witness :
  Routes.updateStatus Scenario.wired_app
    (Scenario.status_request Scenario.employerE "employer"
       Scenario.appId1 (Some "accepted"))
    (mkDb Scenario.people [Scenario.K]
       [Scenario.application1; Scenario.application2], [])
  = (error_response 401 "Not authorized",
     (mkDb Scenario.people [Scenario.K]
        [Scenario.application1; Scenario.application2], [])).
Proof.
  apply (updateStatus_job_gone_unauthorized Scenario.wired_app
           (Scenario.status_request Scenario.employerE "employer"
              Scenario.appId1 (Some "accepted"))
           (mkDb Scenario.people [Scenario.K]
              [Scenario.application1; Scenario.application2], [])
           (mkUser Scenario.employerE "employer") Scenario.application1
           eq_refl eq_refl eq_refl eq_refl eq_refl).
Defined.

(** X10. create is answered 500 and writes nothing when the jobId is
    not a well-formed object id, when the requester's id is not one,
    or when the resume is missing or empty; the catch block of
    POST / has no other answer. *)
Theorem create_invalid_input_internal
    (app : App) (env : Env) (req : Request) (w : World) (u : User) :
  user req = Some u ->
  role u = "candidate" ->
  ObjectId.cast (body_jobId req) = None \/
  ((exists jb,
      JobModel.findOne_active (fst w) (body_jobId req) = inr (Some jb)) /\
   (ObjectId.cast (user_id u) = None \/
    (ApplicationModel.findOne_pair (fst w) (body_jobId req) (user_id u)
     = inr None /\
     (body_resume req = None \/ body_resume req = Some "")))) ->
  Routes.create app env req w = (error_response 500 "Server error", w).
Proof.
  intros Hu Hr H. rewrite create_flat, Hu, Hr, String.eqb_refl. cbn [negb].
  destruct H as [Hc | [[jb Hj] [Hc | [Hp Hres]]]].
  - unfold JobModel.findOne_active, cast_id. rewrite Hc. reflexivity.
  - rewrite Hj. unfold ApplicationModel.findOne_pair, cast_id.
    destruct (ObjectId.cast (body_jobId req)); rewrite ?Hc; reflexivity.
  - rewrite Hj, Hp.
    pose proof (findOne_active_inr _ _ _ Hj) as [_ [Hcj _]].
    assert (Hcu : exists c, ObjectId.cast (user_id u) = Some c).
    { unfold ApplicationModel.findOne_pair, cast_id in Hp. rewrite Hcj in Hp.
      destruct (ObjectId.cast (user_id u)) as [c|]; [|discriminate].
      exists c. reflexivity. }
    destruct Hcu as [c Hcu].
    unfold ApplicationModel.build, cast_id. rewrite Hcj, Hcu.
    destruct Hres as [-> | ->]; reflexivity.
Qed.

Lemma create_invalid_input_internal_witness :
  Routes.create Scenario.wired_app Scenario.env1
    (Scenario.apply_request Scenario.candidateC1 Scenario.jobJ (Some ""))
    (Scenario.db0, [])
  = (error_response 500 "Server error", (Scenario.db0, [])).
Proof.
  apply (create_invalid_input_internal Scenario.wired_app Scenario.env1
           (Scenario.apply_request Scenario.candidateC1 Scenario.jobJ
              (Some ""))
           (Scenario.db0, []) (mkUser Scenario.candidateC1 "candidate")
           eq_refl eq_refl).
  right. split.
  - exists Scenario.J. reflexivity.
  - right. split; [reflexivity | right; reflexivity].
Defined.

Lemma find_some_filter {A} (f : A -> bool) (l : list A) :
  find f l <> None <-> filter f l <> [].
Proof.
  induction l as [|x l IH]; cbn [find filter].
  - tauto.
  - destruct (f x); [|exact IH]. split; intros _; discriminate.
Qed.

(** X11. For a candidate and an active job, create fails with
    Conflict exactly when an application of that candidate to that
    job is already stored. *)
Theorem create_conflict_iff
    (app : App) (env : Env) (req : Request) (w : World)
    (u : User) (jb : Job) (c : ObjectId.t) :
  user req = Some u ->
  role u = "candidate" ->
  JobModel.findOne_active (fst w) (body_jobId req) = inr (Some jb) ->
  ObjectId.cast (user_id u) = Some c ->
  (error_kind (fst (Routes.create app env req w)) = Some Conflict
   <-> applications_of (fst w) (job_oid jb) c <> []).
Proof.
  intros Hu Hr Hj Hc.
  pose proof (findOne_active_inr _ _ _ Hj) as [_ [Hcj _]].
  rewrite create_flat, Hu, Hr, String.eqb_refl. cbn [negb]. rewrite Hj.
  unfold ApplicationModel.findOne_pair, cast_id. rewrite Hcj, Hc.
  unfold applications_of. rewrite <- find_some_filter.
  destruct (find (ApplicationModel.same_pair (job_oid jb) c)
              (applications (fst w))) as [x|].
  - split; [discriminate | reflexivity].
  - split; [|intros H; destruct (H eq_refl)].
    repeat break_match; cbn [fst]; discriminate.
Qed.

Lemma create_conflict_iff_witness :
  error_kind
    (fst (Routes.create Scenario.wired_app Scenario.env3
            (Scenario.apply_request Scenario.candidateC2 Scenario.jobJ
               (Some "cleo.pdf"))
            (Scenario.db2, [])))
  = Some Conflict.
Proof.
  apply (create_conflict_iff Scenario.wired_app Scenario.env3
           (Scenario.apply_request Scenario.candidateC2 Scenario.jobJ
              (Some "cleo.pdf"))
           (Scenario.db2, []) (mkUser Scenario.candidateC2 "candidate")
           Scenario.J Scenario.candidateC2 eq_refl eq_refl eq_refl eq_refl).
  vm_compute. discriminate.
Defined.

(** * The relay rooms (socket/socket.js) *)





(** * The job routes GET /:id, PUT /:id and GET /employer/me *)

Lemma findById_inr (db : Db) (id : string) (jb : Job) :
  JobModel.findById db id = inr (Some jb) ->
  ObjectId.cast id = Some (job_oid jb) /\ In jb (jobs db) /\
  JobModel.findById_oid db (job_oid jb) = Some jb.
Proof.
  unfold JobModel.findById, cast_id.
  destruct (ObjectId.cast id) as [o|]; [|discriminate].
  intros H. injection H as H.
  pose proof H as H'. unfold JobModel.findById_oid in H'.
  apply find_some in H'. destruct H' as [Hin Ho].
  apply oid_eqb_eq in Ho. subst o. auto.
Qed.

Lemma set_fields_keeps (f : JobFields) (j : Job) :
  job_oid (set_fields f j) = job_oid j /\
  employer (set_fields f j) = employer j /\
  company (set_fields f j) = company j /\
  job_createdAt (set_fields f j) = job_createdAt j.
Proof. repeat split. Qed.

Lemma cast_value_inl {A} (kind : string) (v : BodyValue A) (e : Exn) :
  cast_value kind v = inl e -> e = CastError kind.
Proof. destruct v; cbn; intros H; try discriminate. injection H as <-. reflexivity. Qed.

Lemma cast_deadline_inl (d : DeadlineValue) (e : Exn) :
  cast_deadline d = inl e -> e = CastError "date".
Proof.
  destruct d as [|ms|t|]; cbn; try discriminate.
  - destruct (Z.abs ms <=? max_time)%Z; [discriminate|].
    intros H. injection H as <-. reflexivity.
  - intros H. injection H as <-. reflexivity.
Qed.

(** The cast of an update, field by field. *)
Lemma cast_jobFields_inr (f : JobInput) (c : JobFields) :
  cast_jobFields f = inr c ->
  cast_value "string" (b_title f) = inr (f_title c) /\
  cast_value "string" (b_description f) = inr (f_description c) /\
  cast_value "Array" (b_requirements f) = inr (f_requirements c) /\
  cast_value "string" (b_location f) = inr (f_location c) /\
  cast_value "string" (b_salary f) = inr (f_salary c) /\
  cast_value "string" (b_employmentType f) = inr (f_employmentType c) /\
  cast_deadline (b_applicationDeadline f) = inr (f_applicationDeadline c) /\
  cast_value "Boolean" (b_isActive f) = inr (f_isActive c).
Proof.
  unfold cast_jobFields.
  destruct (cast_value "string" (b_title f)); [discriminate|].
  destruct (cast_value "string" (b_description f)); [discriminate|].
  destruct (cast_value "Array" (b_requirements f)); [discriminate|].
  destruct (cast_value "string" (b_location f)); [discriminate|].
  destruct (cast_value "string" (b_salary f)); [discriminate|].
  destruct (cast_value "string" (b_employmentType f)); [discriminate|].
  destruct (cast_deadline (b_applicationDeadline f)); [discriminate|].
  destruct (cast_value "Boolean" (b_isActive f)); [discriminate|].
  intros H. injection H as <-. cbn. auto 10.
Qed.

(** An update that does not cast is answered 500 by the catch block:
    the error is not one of an object id. *)
Lemma cast_jobFields_inl (f : JobInput) (e : Exn) :
  cast_jobFields f = inl e -> JobRoutes.on_error e = JobRoutes.server_error.
Proof.
  unfold cast_jobFields.
  destruct (cast_value "string" (b_title f)) eqn:E1;
    [intros H; injection H as <-; apply cast_value_inl in E1; subst;
     reflexivity|].
  destruct (cast_value "string" (b_description f)) eqn:E2;
    [intros H; injection H as <-; apply cast_value_inl in E2; subst;
     reflexivity|].
  destruct (cast_value "Array" (b_requirements f)) eqn:E3;
    [intros H; injection H as <-; apply cast_value_inl in E3; subst;
     reflexivity|].
  destruct (cast_value "string" (b_location f)) eqn:E4;
    [intros H; injection H as <-; apply cast_value_inl in E4; subst;
     reflexivity|].
  destruct (cast_value "string" (b_salary f)) eqn:E5;
    [intros H; injection H as <-; apply cast_value_inl in E5; subst;
     reflexivity|].
  destruct (cast_value "string" (b_employmentType f)) eqn:E6;
    [intros H; injection H as <-; apply cast_value_inl in E6; subst;
     reflexivity|].
  destruct (cast_deadline (b_applicationDeadline f)) eqn:E7;
    [intros H; injection H as <-; apply cast_deadline_inl in E7; subst;
     reflexivity|].
  destruct (cast_value "Boolean" (b_isActive f)) eqn:E8;
    [intros H; injection H as <-; apply cast_value_inl in E8; subst;
     reflexivity|].
  discriminate.
Qed.

Lemma cast_truthy_nonempty (kind : string) (v : BodyValue string)
    (x : option string) (old : string) :
  cast_value kind (truthy v) = inr x ->
  old <> "" -> or_keep x old <> "".
Proof.
  destruct v as [|s|]; cbn [truthy].
  - cbn. intros H. injection H as <-. auto.
  - destruct (String.eqb s "") eqn:E; cbn; intros H; injection H as <-; cbn.
    + auto.
    + intros _. apply String.eqb_neq. exact E.
  - discriminate.
Qed.

Lemma job_kept_refl (j : Job) : job_kept j j.
Proof. unfold job_kept. auto 10. Qed.

Lemma job_kept_set_fields (b : JobInput) (c : JobFields) (j : Job) :
  cast_jobFields (build_jobFields b) = inr c ->
  job_kept j (set_fields c j).
Proof.
  intros H. apply cast_jobFields_inr in H.
  cbn [build_jobFields b_title b_description b_location b_employmentType]
    in H.
  destruct H as [Ht [Hd [_ [Hl [_ [He _]]]]]].
  unfold job_kept. cbn [set_fields job_oid employer company job_createdAt
                          title description location employmentType].
  repeat split; eapply cast_truthy_nonempty; eassumption.
Qed.

Lemma update_first_Forall2 (o : ObjectId.t) (c : JobFields) (l : list Job) :
  (forall j, job_kept j (set_fields c j)) ->
  Forall2 (fun old new =>
             job_kept old new /\ (new = old \/ job_oid old = o))
    l (update_first o (set_fields c) l).
Proof.
  intros Hk. induction l as [|j l IH]; cbn [update_first]; [constructor|].
  destruct (ObjectId.eqb (job_oid j) o) eqn:E.
  - apply oid_eqb_eq in E. constructor.
    + split; [apply Hk | right; exact E].
    + clear IH. induction l; constructor; auto.
      split; [apply job_kept_refl | left; reflexivity].
  - constructor; [|exact IH].
    split; [apply job_kept_refl | left; reflexivity].
Qed.

Lemma Forall2_job_same (l : list Job) (P : Job -> Prop) :
  Forall2 (fun old new => job_kept old new /\ (new = old \/ P old)) l l.
Proof.
  induction l; constructor; auto.
  split; [apply job_kept_refl | left; reflexivity].
Qed.

(** PUT /:id once the requester is known to be allowed to edit the
    job that was found. *)
Lemma updateJob_allowed (app : App) (req : JobRequest) (w : JobWorld)
    (u : User) (jb : Job) :
  job_user req = Some u ->
  JobModel.findById (fst w) (job_params_id req) = inr (Some jb) ->
  user_id u = ObjectId.toString (employer jb) \/ role u = "admin" ->
  JobRoutes.updateJob app req w
  = match cast_jobFields (build_jobFields (job_body req)) with
    | inl _ => (JobRoutes.server_error, w)
    | inr c =>
        let db' := mkDb (users (fst w))
                     (update_first (job_oid jb) (set_fields c) (jobs (fst w)))
                     (applications (fst w)) in
        let updatedJob := Some (populate_employer (fst w) (set_fields c jb)) in
        match app_get app "io" with
        | Some _ =>
            (mkJobResponse 200 (OneJob updatedJob),
             (db', (snd w ++ [mkBroadcast "jobUpdated" updatedJob])%list))
        | None => (JobRoutes.server_error, (db', snd w))
        end
    end.
Proof.
  intros Hu Hj Hmay. unfold JobRoutes.updateJob. rewrite Hu, Hj.
  pose proof (findById_inr _ _ _ Hj) as [Hc [_ Hf]].
  assert (Hgate : negb (String.eqb (ObjectId.toString (employer jb))
                          (user_id u))
                  && negb (String.eqb (role u) "admin") = false).
  { destruct Hmay as [H | H]; rewrite H, String.eqb_refl; cbn [negb andb].
    - reflexivity.
    - apply andb_false_r. }
  rewrite Hgate. unfold findByIdAndUpdate, cast_id. rewrite Hc, Hf.
  destruct (cast_jobFields (build_jobFields (job_body req))) as [e|c] eqn:Ec.
  - rewrite (cast_jobFields_inl _ _ Ec). reflexivity.
  - cbn [option_map]. destruct (app_get app "io") as [[]|]; reflexivity.
Qed.

(** X13. PUT /:id on a stored job is answered 401 exactly when the
    requester is neither the employer of the job nor an admin; an
    admin may update any job, unlike the status of an application. *)
Theorem updateJob_unauthorized_iff
    (app : App) (req : JobRequest) (w : JobWorld) (u : User) (jb : Job) :
  job_user req = Some u ->
  JobModel.findById (fst w) (job_params_id req) = inr (Some jb) ->
  (JobRoutes.updateJob app req w = (job_error 401 "Not authorized", w)
   <-> (user_id u <> ObjectId.toString (employer jb) /\ role u <> "admin")) /\
  (job_code (fst (JobRoutes.updateJob app req w)) = 401%nat
   <-> (user_id u <> ObjectId.toString (employer jb) /\ role u <> "admin")).
Proof.
  intros Hu Hj.
  destruct (String.eqb_spec (ObjectId.toString (employer jb)) (user_id u))
    as [Eo|Eo];
    destruct (String.eqb_spec (role u) "admin") as [Ea|Ea].
  4: { unfold JobRoutes.updateJob. rewrite Hu, Hj.
       apply String.eqb_neq in Eo. apply String.eqb_neq in Ea.
       rewrite Eo, Ea. cbn [negb andb].
       apply String.eqb_neq in Eo. apply String.eqb_neq in Ea.
       split; split; try reflexivity; intros _; split; congruence. }
  all: rewrite (updateJob_allowed app req w u jb Hu Hj) by auto.
  all: split; split;
    try (intros [H1 H2]; exfalso; congruence);
    destruct (cast_jobFields (build_jobFields (job_body req)));
    try (destruct (app_get app "io") as [[]|]); cbn; intros H; discriminate.
Qed.

Lemma updateJob_unauthorized_iff_witness :
  job_code
    (fst (JobRoutes.updateJob Scenario.wired_app
            (mkJobRequest (Scenario.as_user Scenario.candidateC1 "employer")
               Scenario.jobJ
               (mkJobInput (Given "Senior engineer") Missing Missing Missing
                  Missing Missing NoDeadline Missing))
            (Scenario.db2, [])))
  = 401%nat.
Proof.
  destruct (updateJob_unauthorized_iff Scenario.wired_app
              (mkJobRequest (Scenario.as_user Scenario.candidateC1 "employer")
                 Scenario.jobJ
                 (mkJobInput (Given "Senior engineer") Missing Missing
                    Missing Missing Missing NoDeadline Missing))
              (Scenario.db2, [])
              (mkUser Scenario.candidateC1 "employer") Scenario.J
              eq_refl eq_refl) as [_ [_ H]].
  apply H. split; vm_compute; discriminate.
Defined.

(** X14. PUT /:id never changes users or applications, never adds,
    removes or reorders a job, and on every job leaves the id, the
    employer, the company and the creation date as they are.  A
    required text of a job (title, description, location, employment
    type) never becomes empty, because empty values of the body are
    skipped.  Only jobs with the id of the request can change. *)
Theorem updateJob_keeps
    (app : App) (req : JobRequest) (w : JobWorld) :
  users (fst (snd (JobRoutes.updateJob app req w))) = users (fst w) /\
  applications (fst (snd (JobRoutes.updateJob app req w)))
  = applications (fst w) /\
  Forall2 (fun old new =>
             job_kept old new /\
             (new = old \/
              ObjectId.cast (job_params_id req) = Some (job_oid old)))
    (jobs (fst w))
    (jobs (fst (snd (JobRoutes.updateJob app req w)))).
Proof.
  pose proof (Forall2_job_same (jobs (fst w))
                (fun old => ObjectId.cast (job_params_id req)
                            = Some (job_oid old))) as Hsame.
  unfold JobRoutes.updateJob.
  destruct (job_user req) as [u|]; [|auto].
  destruct (JobModel.findById (fst w) (job_params_id req))
    as [e|[jb|]]; auto.
  destruct (negb (String.eqb (ObjectId.toString (employer jb)) (user_id u))
            && negb (String.eqb (role u) "admin")); [auto|].
  unfold findByIdAndUpdate, cast_id.
  destruct (ObjectId.cast (job_params_id req)) as [o|] eqn:Hc; [|auto].
  destruct (cast_jobFields (build_jobFields (job_body req))) as [e|c] eqn:Ec;
    [auto|].
  assert (Hupd : Forall2
                   (fun old new =>
                      job_kept old new /\
                      (new = old \/ Some o = Some (job_oid old)))
                   (jobs (fst w))
                   (update_first o (set_fields c) (jobs (fst w)))).
  { eapply Forall2_impl; [|apply update_first_Forall2].
    - cbv beta. intros old new [H1 [H2 | H2]]; split; auto.
      right. rewrite H2. reflexivity.
    - intros j. exact (job_kept_set_fields _ _ j Ec). }
  destruct (app_get app "io") as [[]|]; cbn [fst snd users applications jobs];
    auto.
Qed.

Lemma update_first_find (o : ObjectId.t) (f : Job -> Job) (l : list Job) :
  (forall j, job_oid (f j) = job_oid j) ->
  find (fun j => ObjectId.eqb (job_oid j) o) (update_first o f l)
  = option_map f (find (fun j => ObjectId.eqb (job_oid j) o) l).
Proof.
  intros Hf. induction l as [|j l IH]; cbn [update_first find option_map].
  - reflexivity.
  - destruct (ObjectId.eqb (job_oid j) o) eqn:E; cbn [find].
    + rewrite Hf, E. reflexivity.
    + rewrite E. exact IH.
Qed.

(** X15. What PUT /:id writes is what GET /:id returns next.  When
    the employer of a stored job, or an admin, sends a body whose
    values all cast, a GET for the same id on the store the PUT left
    is answered 200 with the updated job, whether the PUT itself was
    answered 200 or 500; a PUT that is answered 200 carries that same
    body. *)
Theorem updateJob_then_getJob
    (app : App) (req req' : JobRequest) (w : JobWorld)
    (u : User) (jb : Job) (c : JobFields) :
  job_user req = Some u ->
  JobModel.findById (fst w) (job_params_id req) = inr (Some jb) ->
  user_id u = ObjectId.toString (employer jb) \/ role u = "admin" ->
  cast_jobFields (build_jobFields (job_body req)) = inr c ->
  job_params_id req' = job_params_id req ->
  fst (JobRoutes.getJob req' (snd (JobRoutes.updateJob app req w)))
  = mkJobResponse 200
      (OneJob (Some (populate_employer (fst w) (set_fields c jb)))) /\
  fst (JobRoutes.updateJob app req w)
  = match app_get app "io" with
    | Some _ =>
        mkJobResponse 200
          (OneJob (Some (populate_employer (fst w) (set_fields c jb))))
    | None => JobRoutes.server_error
    end.
Proof.
  intros Hu Hj Hmay Hc Hid.
  rewrite (updateJob_allowed app req w u jb Hu Hj Hmay), Hc.
  pose proof (findById_inr _ _ _ Hj) as [Hcast [_ Hf]].
  assert (Hget : forall log,
             fst (JobRoutes.getJob req'
                    (mkDb (users (fst w))
                       (update_first (job_oid jb) (set_fields c)
                          (jobs (fst w)))
                       (applications (fst w)), log))
             = mkJobResponse 200
                 (OneJob (Some (populate_employer (fst w)
                                  (set_fields c jb))))).
  { intros log. unfold JobRoutes.getJob. rewrite Hid.
    unfold JobModel.findById, cast_id, JobModel.findById_oid. rewrite Hcast.
    cbn [fst jobs]. rewrite update_first_find by reflexivity.
    unfold JobModel.findById_oid in Hf. rewrite Hf. reflexivity. }
  cbv zeta.
  destruct (app_get app "io") as [[]|]; cbn [fst snd];
    (split; [apply Hget | reflexivity]).
Qed.

Lemma updateJob_then_getJob_witness :
  fst (JobRoutes.getJob
         (mkJobRequest None Scenario.jobJ empty_body)
         (snd (JobRoutes.updateJob server_app
                 (mkJobRequest (Scenario.as_user Scenario.adminA "admin")
                    Scenario.jobJ
                    (mkJobInput (Given "Senior engineer") (Given "") Missing
                       Missing Missing Missing (DeadlineNumber 0)
                       (Given false)))
                 (Scenario.db2, []))))
  = mkJobResponse 200
      (OneJob
         (Some (populate_employer Scenario.db2
                  (mkJob Scenario.jobJ "Senior engineer" "Acme" "Paris"
                     "Work on the back end" ["OCaml"] None "full-time"
                     Scenario.employerE false None 100)))).
Proof.
  apply (updateJob_then_getJob server_app
           (mkJobRequest (Scenario.as_user Scenario.adminA "admin")
              Scenario.jobJ
              (mkJobInput (Given "Senior engineer") (Given "") Missing
                 Missing Missing Missing (DeadlineNumber 0) (Given false)))
           (mkJobRequest None Scenario.jobJ empty_body)
           (Scenario.db2, [])
           (mkUser Scenario.adminA "admin") Scenario.J
           (mkJobFields (Some "Senior engineer") None None None None None
              None (Some false))).
  - reflexivity.
  - reflexivity.
  - right. reflexivity.
  - reflexivity.
  - reflexivity.
Defined.

Lemma update_first_no_active (o : ObjectId.t) (g : Job -> Job)
    (l : list Job) :
  NoDup (map job_oid l) ->
  (forall j, job_oid (g j) = job_oid j) ->
  (forall j, isActive (g j) = false) ->
  find (fun j => ObjectId.eqb (job_oid j) o && isActive j)
    (update_first o g l) = None.
Proof.
  intros Hnd Hid Hact. induction l as [|j l IH]; cbn [update_first].
  - reflexivity.
  - cbn [map] in Hnd. inversion Hnd as [|x xs Hnotin Hnd']; subst.
    destruct (ObjectId.eqb (job_oid j) o) eqn:E; cbn [find].
    + rewrite Hact, andb_false_r. apply oid_eqb_eq in E. subst o.
      apply find_all_false. intros k Hk.
      assert (Hne : ObjectId.eqb (job_oid k) (job_oid j) = false).
      { apply oid_eqb_neq. intros Heq. apply Hnotin. rewrite <- Heq.
        apply in_map. exact Hk. }
      rewrite Hne. reflexivity.
    + rewrite E. cbn [andb]. apply IH. exact Hnd'.
Qed.

(** X16. Once the employer of a job, or an admin, has sent PUT /:id
    with isActive false in a body whose values all cast, every create
    for that job fails with NotFound and writes nothing, whether the
    PUT was answered 200 or 500.  (Job ids are distinct, as the store
    keeps them.)  When a value of the body does not cast, the PUT
    writes nothing and the job stays as it was. *)
Theorem deactivated_job_takes_no_application
    (app : App) (reqJ : JobRequest) (w : JobWorld) (u : User) (jb : Job)
    (env : Env) (reqA : Request) (ua : User) (log : list Event) :
  NoDup (map job_oid (jobs (fst w))) ->
  job_user reqJ = Some u ->
  JobModel.findById (fst w) (job_params_id reqJ) = inr (Some jb) ->
  user_id u = ObjectId.toString (employer jb) \/ role u = "admin" ->
  b_isActive (job_body reqJ) = Given false ->
  user reqA = Some ua ->
  role ua = "candidate" ->
  ObjectId.cast (body_jobId reqA) = Some (job_oid jb) ->
  ((exists c, cast_jobFields (build_jobFields (job_body reqJ)) = inr c) ->
   Routes.create app env reqA
     (fst (snd (JobRoutes.updateJob app reqJ w)), log)
   = (error_response 404 "Job not found or no longer active",
      (fst (snd (JobRoutes.updateJob app reqJ w)), log))) /\
  ((exists e, cast_jobFields (build_jobFields (job_body reqJ)) = inl e) ->
   JobRoutes.updateJob app reqJ w = (JobRoutes.server_error, w)).
Proof.
  intros Hnd Hu Hj Hmay Hact Hua Hra Hca.
  rewrite (updateJob_allowed app reqJ w u jb Hu Hj Hmay).
  split.
  - intros [c Hc]. rewrite Hc.
    assert (Hia : f_isActive c = Some false).
    { apply cast_jobFields_inr in Hc.
      destruct Hc as [_ [_ [_ [_ [_ [_ [_ Hc]]]]]]].
      cbn [build_jobFields b_isActive] in Hc. rewrite Hact in Hc.
      cbn in Hc. injection Hc as <-. reflexivity. }
    assert (Hjobs : forall log',
               jobs (fst (mkDb (users (fst w))
                            (update_first (job_oid jb) (set_fields c)
                               (jobs (fst w)))
                            (applications (fst w)), log' : list Broadcast))
               = update_first (job_oid jb) (set_fields c) (jobs (fst w)))
      by reflexivity.
    rewrite create_flat, Hua, Hra, String.eqb_refl. cbn [negb fst].
    unfold JobModel.findOne_active, cast_id. rewrite Hca.
    cbv zeta.
    destruct (app_get app "io") as [[]|]; cbn [fst snd jobs];
      rewrite update_first_no_active; try reflexivity; try exact Hnd;
      intros j; cbn; rewrite Hia; reflexivity.
  - intros [e He]. rewrite He. reflexivity.
Qed.

Lemma deactivated_job_takes_no_application_witness :
  error_kind
    (fst (Routes.create server_app Scenario.env3
            (Scenario.apply_request Scenario.candidateC1 Scenario.jobJ
               (Some "carl.pdf"))
            (fst (snd (JobRoutes.updateJob server_app
                         (mkJobRequest
                            (Scenario.as_user Scenario.employerE "employer")
                            Scenario.jobJ
                            (mkJobInput Missing Missing Missing Missing
                               Missing Missing NoDeadline (Given false)))
                         (Scenario.db0, []))), [])))
  = Some NotFound.
Proof.
  destruct (deactivated_job_takes_no_application server_app
              (mkJobRequest (Scenario.as_user Scenario.employerE "employer")
                 Scenario.jobJ
                 (mkJobInput Missing Missing Missing Missing Missing Missing
                    NoDeadline (Given false)))
              (Scenario.db0, []) (mkUser Scenario.employerE "employer")
              Scenario.J Scenario.env3
              (Scenario.apply_request Scenario.candidateC1 Scenario.jobJ
                 (Some "carl.pdf"))
              (mkUser Scenario.candidateC1 "candidate") []) as [H _].
  - cbn. constructor.
    + intros [E | []]. vm_compute in E. discriminate.
    + constructor; [intros [] | constructor].
  - reflexivity.
  - reflexivity.
  - left. reflexivity.
  - reflexivity.
  - reflexivity.
  - reflexivity.
  - reflexivity.
  - rewrite H; [reflexivity|]. eexists. reflexivity.
Defined.

(** X17. On the application [server.js] builds, PUT /:id is never
    answered 200 and never broadcasts jobUpdated, whatever the
    request and the store.  When the requester may edit the job, the
    answer is 500 either way: the update is written first when every
    value of the body casts, and nothing is written when one does
    not. *)
Theorem server_app_never_acknowledges_a_job_update
    (req : JobRequest) (w : JobWorld) :
  job_code (fst (JobRoutes.updateJob server_app req w)) <> 200%nat /\
  snd (snd (JobRoutes.updateJob server_app req w)) = snd w /\
  (forall u jb,
     job_user req = Some u ->
     JobModel.findById (fst w) (job_params_id req) = inr (Some jb) ->
     user_id u = ObjectId.toString (employer jb) \/ role u = "admin" ->
     (forall c,
        cast_jobFields (build_jobFields (job_body req)) = inr c ->
        JobRoutes.updateJob server_app req w
        = (JobRoutes.server_error,
           (mkDb (users (fst w))
              (update_first (job_oid jb) (set_fields c) (jobs (fst w)))
              (applications (fst w)),
            snd w))) /\
     (forall e,
        cast_jobFields (build_jobFields (job_body req)) = inl e ->
        JobRoutes.updateJob server_app req w = (JobRoutes.server_error, w))).
Proof.
  assert (Hio : app_get server_app "io" = None) by reflexivity.
  split; [|split].
  - unfold JobRoutes.updateJob. rewrite Hio.
    repeat break_match; cbn [fst job_code job_error JobRoutes.server_error
                               JobRoutes.unauthenticated];
      try discriminate.
    all: unfold JobRoutes.on_error; repeat break_match; discriminate.
  - unfold JobRoutes.updateJob. rewrite Hio.
    repeat break_match; reflexivity.
  - intros u jb Hu Hj Hmay.
    rewrite (updateJob_allowed server_app req w u jb Hu Hj Hmay), Hio.
    split.
    + intros c Hc. rewrite Hc. reflexivity.
    + intros e He. rewrite He. reflexivity.
Qed.

(** X18. GET /:id is answered 404 exactly when no stored job has the
    id of the request, a malformed id included, and 200 otherwise; it
    is never answered 500 and never writes. *)
Theorem getJob_not_found_iff (req : JobRequest) (w : JobWorld) :
  snd (JobRoutes.getJob req w) = w /\
  (job_code (fst (JobRoutes.getJob req w)) = 404%nat
   <-> forall jb, In jb (jobs (fst w)) ->
                  ObjectId.cast (job_params_id req) <> Some (job_oid jb)) /\
  (job_code (fst (JobRoutes.getJob req w)) = 200%nat \/
   job_code (fst (JobRoutes.getJob req w)) = 404%nat).
Proof.
  unfold JobRoutes.getJob, JobModel.findById, cast_id, JobModel.findById_oid.
  destruct (ObjectId.cast (job_params_id req)) as [o|] eqn:Hc.
  - destruct (find (fun j => ObjectId.eqb (job_oid j) o) (jobs (fst w)))
      as [jb|] eqn:Hf; cbn [fst snd job_code job_error].
    + split; [reflexivity|]. split; [|left; reflexivity].
      split; [discriminate|]. intros H. exfalso.
      apply find_some in Hf. destruct Hf as [Hin Ho].
      apply oid_eqb_eq in Ho. apply (H jb Hin). rewrite Ho. reflexivity.
    + split; [reflexivity|]. split; [|right; reflexivity].
      split; [|reflexivity]. intros _ jb Hin Heq. injection Heq as ->.
      pose proof (find_none _ _ Hf jb Hin) as Hn. cbv beta in Hn.
      rewrite oid_eqb_refl in Hn. discriminate.
  - cbn. split; [reflexivity|]. split; [|right; reflexivity].
    split; [|reflexivity]. intros _ jb _. discriminate.
Qed.

(** ** GET /employer/me *)

Lemma insert_job_desc_perm (j : Job) (l : list Job) :
  Permutation (j :: l) (insert_job_desc j l).
Proof.
  induction l as [|k l IH]; cbn [insert_job_desc].
  - apply Permutation_refl.
  - destruct (job_createdAt k <=? job_createdAt j)%Z.
    + apply Permutation_refl.
    + apply perm_trans with (k :: j :: l); [apply perm_swap|].
      apply perm_skip. exact IH.
Qed.

Lemma sort_jobs_desc_perm (l : list Job) : Permutation l (sort_jobs_desc l).
Proof.
  induction l as [|j l IH]; cbn [sort_jobs_desc].
  - apply perm_nil.
  - apply perm_trans with (j :: sort_jobs_desc l).
    + apply perm_skip. exact IH.
    + apply insert_job_desc_perm.
Qed.

Lemma insert_job_desc_sorted (j : Job) (l : list Job) :
  StronglySorted job_newer_or_equal l ->
  StronglySorted job_newer_or_equal (insert_job_desc j l).
Proof.
  induction 1 as [|k l Hs IH Hk]; cbn [insert_job_desc].
  - constructor; constructor.
  - destruct (job_createdAt k <=? job_createdAt j)%Z eqn:E.
    + apply Z.leb_le in E. constructor.
      * constructor; assumption.
      * constructor; [exact E|].
        rewrite Forall_forall in *. intros c Hc.
        unfold job_newer_or_equal in *. specialize (Hk c Hc). lia.
    + apply Z.leb_gt in E. constructor; [exact IH|].
      rewrite Forall_forall in *. intros c Hc.
      apply (Permutation_in _ (Permutation_sym (insert_job_desc_perm j l)))
        in Hc.
      destruct Hc as [<- | Hc].
      * unfold job_newer_or_equal. lia.
      * apply Hk. exact Hc.
Qed.

Lemma sort_jobs_desc_sorted (l : list Job) :
  StronglySorted job_newer_or_equal (sort_jobs_desc l).
Proof.
  induction l as [|j l IH]; cbn [sort_jobs_desc].
  - constructor.
  - apply insert_job_desc_sorted. exact IH.
Qed.

(** X19. GET /employer/me refuses every requester whose role is not
    employer with 403, admins included, and returns to an employer
    exactly the jobs whose employer is the requester, newest first.
    It never writes. *)
Theorem myJobs_spec (req : JobRequest) (w : JobWorld) (u : User) :
  job_user req = Some u ->
  snd (JobRoutes.myJobs req w) = w /\
  (role u <> "employer" ->
   fst (JobRoutes.myJobs req w)
   = job_error 403 "Access denied. Employers only.") /\
  (forall o,
     role u = "employer" ->
     ObjectId.cast (user_id u) = Some o ->
     exists l,
       fst (JobRoutes.myJobs req w) = mkJobResponse 200 (JobList l) /\
       Permutation l
         (filter (fun j => ObjectId.eqb (employer j) o) (jobs (fst w))) /\
       (forall j, In j l <-> In j (jobs (fst w)) /\ employer j = o) /\
       StronglySorted job_newer_or_equal l).
Proof.
  intros Hu. unfold JobRoutes.myJobs. rewrite Hu. split; [|split].
  - destruct (negb (String.eqb (role u) "employer")); [reflexivity|].
    destruct (find_by_employer (fst w) (user_id u)); reflexivity.
  - intros Hr. apply String.eqb_neq in Hr. rewrite Hr. reflexivity.
  - intros o Hr Hc. rewrite Hr, String.eqb_refl. cbn [negb].
    unfold find_by_employer, cast_id. rewrite Hc. cbn [fst].
    eexists. split; [reflexivity|]. split; [|split].
    + apply Permutation_sym. apply sort_jobs_desc_perm.
    + intros j. split; intros H.
      * apply (Permutation_in _ (Permutation_sym (sort_jobs_desc_perm _)))
          in H.
        apply filter_In in H. rewrite oid_eqb_eq in H. exact H.
      * apply (Permutation_in _ (sort_jobs_desc_perm _)).
        apply filter_In. rewrite oid_eqb_eq. exact H.
    + apply sort_jobs_desc_sorted.
Qed.

Lemma myJobs_spec_witness :
  fst (JobRoutes.myJobs
         (mkJobRequest (Scenario.as_user Scenario.employerE "employer") ""
            empty_body)
         (Scenario.db2, []))
  = mkJobResponse 200 (JobList [Scenario.J; Scenario.K]).
Proof.
  destruct (myJobs_spec
              (mkJobRequest (Scenario.as_user Scenario.employerE "employer")
                 "" empty_body)
              (Scenario.db2, [])
              (mkUser Scenario.employerE "employer") eq_refl)
    as [_ [_ H]].
  destruct (H Scenario.employerE eq_refl eq_refl) as [l [Hresp _]].
  rewrite Hresp. vm_compute in Hresp. injection Hresp as <-. reflexivity.
Defined.

(** * updateStatus keeps no history *)

Lemma update_status_twice (db : Db) (a : Application) (s1 s2 : string) :
  ApplicationModel.update_status
    (ApplicationModel.update_status db a s1)
    (ApplicationModel.set_status s1 a) s2
  = ApplicationModel.update_status db a s2.
Proof.
  unfold ApplicationModel.update_status. cbn [users jobs applications app_oid
                                                ApplicationModel.set_status].
  f_equal. rewrite map_map. apply map_ext. intros b.
  destruct (ObjectId.eqb (app_oid b) (app_oid a)) eqn:E;
    cbn [app_oid ApplicationModel.set_status]; rewrite E; reflexivity.
Qed.

(** X20. The last status written wins: when two updateStatus requests
    of one requester name the same application and the second carries
    one of the four values, the store after both is the store after
    the second alone, on any application object.  In particular
    sending the same request twice stores what sending it once
    stores. *)
Theorem updateStatus_last_write_wins
    (app : App) (req1 req2 : Request) (w : World) :
  user req1 = user req2 ->
  params_id req1 = params_id req2 ->
  Routes.valid_status (body_status req2) = true ->
  fst (snd (Routes.updateStatus app req2
              (snd (Routes.updateStatus app req1 w))))
  = fst (snd (Routes.updateStatus app req2 w)).
Proof.
  intros Hu Hid Hs2.
  unfold Routes.valid_status in Hs2.
  destruct (body_status req2) as [s2|] eqn:Hb2; [|discriminate].
  assert (Hfail : snd (Routes.updateStatus app req1 w) = w ->
                  fst (snd (Routes.updateStatus app req2
                              (snd (Routes.updateStatus app req1 w))))
                  = fst (snd (Routes.updateStatus app req2 w))).
  { intros H. rewrite H. reflexivity. }
  rewrite (updateStatus_flat app req1 w) in *.
  destruct (user req1) as [u|] eqn:Hu1; [|apply Hfail; reflexivity].
  destruct (String.eqb (role u) "employer") eqn:Hr; cbn [negb] in *;
    [|apply Hfail; reflexivity].
  destruct (body_status req1) as [s1|]; [|apply Hfail; reflexivity].
  destruct (includes status_enum s1); cbn [negb] in *;
    [|apply Hfail; reflexivity].
  destruct (ApplicationModel.findById (fst w) (params_id req1))
    as [e|[a|]] eqn:Ha; try (apply Hfail; reflexivity).
  destruct (JobModel.findById_oid (fst w) (job a)) as [jb|] eqn:Hj;
    [|apply Hfail; reflexivity].
  destruct (String.eqb (ObjectId.toString (employer jb)) (user_id u)) eqn:Eo;
    cbn [negb] in *; [|apply Hfail; reflexivity].
  clear Hfail.
  assert (Hsecond : forall w',
             fst w' = ApplicationModel.update_status (fst w) a s1 ->
             fst (snd (Routes.updateStatus app req2 w'))
             = ApplicationModel.update_status (fst w) a s2).
  { intros w' Hw'.
    rewrite updateStatus_flat, <- Hu, Hr, Hb2, Hs2, <- Hid, Hw'.
    cbn [negb].
    rewrite (update_status_stored _ _ _ s1 Ha).
    assert (Hj' : JobModel.findById_oid
                    (ApplicationModel.update_status (fst w) a s1)
                    (job (ApplicationModel.set_status s1 a)) = Some jb)
      by exact Hj.
    rewrite Hj', Eo. cbn [negb].
    destruct (app_get app "io"); cbn [fst snd];
      apply update_status_twice. }
  assert (Hdirect : fst (snd (Routes.updateStatus app req2 w))
                    = ApplicationModel.update_status (fst w) a s2).
  { rewrite updateStatus_flat, <- Hu, Hr, Hb2, Hs2, <- Hid, Ha, Hj, Eo.
    cbn [negb]. destruct (app_get app "io"); reflexivity. }
  rewrite Hdirect.
  destruct (app_get app "io"); apply Hsecond; reflexivity.
Qed.

Lemma updateStatus_last_write_wins_witness :
  fst (snd (Routes.updateStatus server_app
              (Scenario.status_request Scenario.employerE "employer"
                 Scenario.appId1 (Some "pending"))
              (snd (Routes.updateStatus server_app
                      (Scenario.status_request Scenario.employerE "employer"
                         Scenario.appId1 (Some "accepted"))
                      (Scenario.db2, [])))))
  = Scenario.db2.
Proof.
  rewrite (updateStatus_last_write_wins server_app
             (Scenario.status_request Scenario.employerE "employer"
                Scenario.appId1 (Some "accepted"))
             (Scenario.status_request Scenario.employerE "employer"
                Scenario.appId1 (Some "pending"))
             (Scenario.db2, []) eq_refl eq_refl eq_refl).
  vm_compute. reflexivity.
Defined.


(** * create and updateStatus on the application server.js builds *)

(** C6 on a jobId that is not an object id.  No job has the id
    "not-an-id", yet create is answered 500 Server error and not
    NotFound, with or without a socket server registered: the catch
    block of POST / has no branch for the cast error.  The catch
    block of GET /job/:jobId has one, and answers the same id with
    404. *)
Theorem create_malformed_job_id_answers_500 :
  ObjectId.cast "not-an-id" = None /\
  (forall jb, In jb (jobs Scenario.db2) ->
              ObjectId.cast "not-an-id" <> Some (job_oid jb)) /\
  Routes.create server_app Scenario.env3
    (Scenario.apply_request Scenario.candidateC1 "not-an-id"
       (Some "carl.pdf"))
    (Scenario.db2, [])
  = (error_response 500 "Server error", (Scenario.db2, [])) /\
  Routes.create Scenario.wired_app Scenario.env3
    (Scenario.apply_request Scenario.candidateC1 "not-an-id"
       (Some "carl.pdf"))
    (Scenario.db2, [])
  = (error_response 500 "Server error", (Scenario.db2, [])) /\
  error_kind
    (fst (Routes.create server_app Scenario.env3
            (Scenario.apply_request Scenario.candidateC1 "not-an-id"
               (Some "carl.pdf"))
            (Scenario.db2, [])))
  = Some Internal /\
  error_kind
    (fst (Routes.listByJob
            (Scenario.list_request Scenario.employerE "employer" "not-an-id")
            (Scenario.db2, [])))
  = Some NotFound.
Proof.
  split; [reflexivity|]. split.
  - intros jb _. vm_compute. discriminate.
  - repeat split; vm_compute; reflexivity.
Qed.

(** POST / once it is past every check: the record is stored, and
    the notification decides between 200 and 500. *)
Lemma create_stores (app : App) (env : Env) (req : Request) (w : World)
    (u : User) (jb : Job) (c : ObjectId.t) (r : string) :
  user req = Some u ->
  role u = "candidate" ->
  JobModel.findOne_active (fst w) (body_jobId req) = inr (Some jb) ->
  ObjectId.cast (user_id u) = Some c ->
  applications_of (fst w) (job_oid jb) c = [] ->
  body_resume req = Some r ->
  r <> "" ->
  ~ In (new_oid env) (map app_oid (applications (fst w))) ->
  Routes.create app env req w
  = match app_get app "io" with
    | Some _ =>
        (mkResponse 200
           (ApplicationDoc
              (mkApplication (new_oid env) (job_oid jb) c r
                 (body_coverLetter req) "pending" (now env))),
         (mkDb (users (fst w)) (jobs (fst w))
            (applications (fst w)
             ++ [mkApplication (new_oid env) (job_oid jb) c r
                   (body_coverLetter req) "pending" (now env)])%list,
          (snd w
           ++ [newApplication_event jb
                 (mkApplication (new_oid env) (job_oid jb) c r
                    (body_coverLetter req) "pending" (now env))])%list))
    | None =>
        (Routes.server_error,
         (mkDb (users (fst w)) (jobs (fst w))
            (applications (fst w)
             ++ [mkApplication (new_oid env) (job_oid jb) c r
                   (body_coverLetter req) "pending" (now env)])%list,
          snd w))
    end.
Proof.
  intros Hu Hr Hj Hc Hnone Hres Hne Hfresh.
  pose proof (findOne_active_inr _ _ _ Hj) as [_ [Hcj _]].
  rewrite create_flat, Hu, Hr, String.eqb_refl. cbn [negb]. rewrite Hj.
  unfold ApplicationModel.findOne_pair, cast_id. rewrite Hcj, Hc.
  rewrite (filter_nil_find_none _ _ Hnone).
  unfold ApplicationModel.build, cast_id. rewrite Hcj, Hc, Hres.
  apply String.eqb_neq in Hne. rewrite Hne.
  unfold ApplicationModel.insert. cbn [app_oid job candidate].
  rewrite (not_In_oid_existsb _ _ Hfresh).
  unfold applications_of in Hnone.
  rewrite (filter_nil_existsb _ _ Hnone). reflexivity.
Qed.

(** C7 on the application [server.js] builds.  A create call by a
    candidate for an active job to which the candidate has not
    applied, with a resume, stores the record the claim describes:
    status pending, the job and the candidate of the request, its
    resume and cover letter.  The record is not returned: the call is
    answered 500 Server error, because no socket server is registered
    under 'io' and the notification that follows the insert throws. *)
Theorem create_on_server_app_stores_but_answers_500
    (env : Env) (req : Request) (w : World)
    (u : User) (jb : Job) (c : ObjectId.t) (r : string) :
  user req = Some u ->
  role u = "candidate" ->
  JobModel.findOne_active (fst w) (body_jobId req) = inr (Some jb) ->
  ObjectId.cast (user_id u) = Some c ->
  applications_of (fst w) (job_oid jb) c = [] ->
  body_resume req = Some r ->
  r <> "" ->
  ~ In (new_oid env) (map app_oid (applications (fst w))) ->
  Routes.create server_app env req w
  = (error_response 500 "Server error",
     (mkDb (users (fst w)) (jobs (fst w))
        (applications (fst w)
         ++ [mkApplication (new_oid env) (job_oid jb) c r
               (body_coverLetter req) "pending" (now env)])%list,
      snd w)).
Proof.
  intros Hu Hr Hj Hc Hnone Hres Hne Hfresh.
  rewrite (create_stores server_app env req w u jb c r
             Hu Hr Hj Hc Hnone Hres Hne Hfresh).
  reflexivity.
Qed.

Lemma create_on_server_app_stores_but_answers_500_witness :
  Routes.create server_app Scenario.env1
    (Scenario.apply_request Scenario.candidateC1 Scenario.jobJ
       (Some "carl.pdf"))
    (Scenario.db0, [])
  = (error_response 500 "Server error",
     (mkDb Scenario.people [Scenario.J; Scenario.K] [Scenario.application1],
      [])).
Proof.
  apply (create_on_server_app_stores_but_answers_500 Scenario.env1
           (Scenario.apply_request Scenario.candidateC1 Scenario.jobJ
              (Some "carl.pdf"))
           (Scenario.db0, [])
           (mkUser Scenario.candidateC1 "candidate") Scenario.J
           Scenario.candidateC1 "carl.pdf"
           eq_refl eq_refl eq_refl eq_refl eq_refl eq_refl).
  - discriminate.
  - intros [].
Defined.

(** C8 on the application [server.js] builds.  The create that
    stores an application emits no newApplication event, and the
    updateStatus that stores a status emits no
    applicationStatusUpdated event: the event log stays empty and
    both calls are answered 500, because no socket server is
    registered under 'io'. *)
Theorem stored_writes_emit_nothing_on_server_app :
  app_get server_app "io" = None /\
  Routes.create server_app Scenario.env1
    (Scenario.apply_request Scenario.candidateC1 Scenario.jobJ
       (Some "carl.pdf"))
    (Scenario.db0, [])
  = (error_response 500 "Server error",
     (mkDb Scenario.people [Scenario.J; Scenario.K] [Scenario.application1],
      [])) /\
  ~ In (newApplication_event Scenario.J Scenario.application1)
      (snd (snd (Routes.create server_app Scenario.env1
                   (Scenario.apply_request Scenario.candidateC1
                      Scenario.jobJ (Some "carl.pdf"))
                   (Scenario.db0, [])))) /\
  Routes.updateStatus server_app
    (Scenario.status_request Scenario.employerE "employer"
       Scenario.appId1 (Some "reviewing"))
    (Scenario.db2, [])
  = (error_response 500 "Server error",
     (mkDb Scenario.people [Scenario.J; Scenario.K]
        [ApplicationModel.set_status "reviewing" Scenario.application1;
         Scenario.application2],
      [])) /\
  ~ In (statusUpdated_event Scenario.J Scenario.application1 "reviewing")
      (snd (snd (Routes.updateStatus server_app
                   (Scenario.status_request Scenario.employerE "employer"
                      Scenario.appId1 (Some "reviewing"))
                   (Scenario.db2, [])))).
Proof.
  split; [reflexivity|].
  split; [vm_compute; reflexivity|].
  split; [vm_compute; intros []|].
  split; [vm_compute; reflexivity|].
  vm_compute; intros [].
Qed.
